(** * Stochastic weight averaging and the DeepSpeed adapter

    A shallow embedding of
    - [pytorch_lightning/callbacks/swa.py] (module [SWA]) and
    - [pytorch_lightning/plugins/training_type/deepspeed.py]
      (module [DeepSpeed]),
    preceded by the fragment of Python both rely on (module [Py]):
    exceptions, binary64 floats, the int/float comparison rules and a
    small universe of Python values. *)

From Stdlib Require Import ZArith QArith Qcanon Bool Ascii String Lia.
From Stdlib Require Import Floats.SpecFloat.
From stdpp Require Import gmap strings list fin_maps.

Set Warnings "-register-all".
#[local] Open Scope Z_scope.

(** * Python prelude *)
Module Py.

(** Exceptions that the two source files raise themselves or let escape. *)
Inductive exn :=
| MisconfigurationException (msg : string)
| TypeError
| ValueError
| OverflowError
| IndexError
| KeyError (key : string)
| AttributeError (attr : string)
| NameError (name : string)
| ExternalError (origin : string).

Inductive result (A : Type) :=
| Ok (a : A)
| Raise (e : exn).
Arguments Ok {A} a.
Arguments Raise {A} e.

#[export] Instance result_ret : MRet result := fun A a => Ok a.
#[export] Instance result_bind : MBind result := fun A B f m =>
  match m with
  | Ok a => f a
  | Raise e => Raise e
  end.

#[export] Instance result_fmap : FMap result := fun A B f m =>
  match m with
  | Ok a => Ok (f a)
  | Raise e => Raise e
  end.

Definition raises {A} (m : result A) : bool :=
  match m with Ok _ => false | Raise _ => true end.

(** ** Floats: IEEE 754 binary64, as CPython's [float] *)

Definition prec : Z := 53.
Definition emax : Z := 1024.

Definition float := spec_float.

(** [float(z)]: round to nearest even; CPython raises [OverflowError]
    when the integer is too large. *)
Definition float_of_int (z : Z) : result float :=
  match binary_normalize prec emax z 0 false with
  | S754_infinity _ => Raise OverflowError
  | f => Ok f
  end.

(** A decimal literal [n/d]: the correctly rounded quotient of two exactly
    representable integers. *)
Definition float_lit (n d : Z) : float :=
  SFdiv prec emax (binary_normalize prec emax n 0 false)
                  (binary_normalize prec emax d 0 false).

Definition float_mul : float -> float -> float := SFmul prec emax.
Definition float_sub : float -> float -> float := SFsub prec emax.

(** [int(f)]: truncation toward zero. *)
Definition int_of_float (f : float) : result Z :=
  match f with
  | S754_zero _ => Ok 0
  | S754_infinity _ => Raise OverflowError
  | S754_nan => Raise ValueError
  | S754_finite s m e =>
      Ok (cond_Zopp s
            (match e with
             | Zneg p => Z.shiftr (Zpos m) (Zpos p)
             | _ => Z.shiftl (Zpos m) e
             end))
  end.

Definition is_nan (f : float) : bool :=
  match f with S754_nan => true | _ => false end.

(** ** Numbers: [int] (with [bool] as its subclass) and [float] *)

Inductive pynum :=
| PInt (z : Z)
| PFloat (f : float).

(** CPython compares an [int] with a [float] exactly, without rounding the
    integer. *)
Definition float_cmp_int (f : float) (z : Z) : option comparison :=
  match f with
  | S754_nan => None
  | S754_infinity s => Some (if s then Lt else Gt)
  | S754_zero _ => Some (0 ?= z)
  | S754_finite s m e =>
      let v := cond_Zopp s (Zpos m) in
      Some (match e with
            | Zneg p => v ?= z * 2 ^ Zpos p
            | _ => v * 2 ^ e ?= z
            end)
  end.

Definition pynum_compare (a b : pynum) : option comparison :=
  match a, b with
  | PInt x, PInt y => Some (x ?= y)
  | PFloat f, PFloat g => SFcompare f g
  | PFloat f, PInt y => float_cmp_int f y
  | PInt x, PFloat g => CompOpp <$> float_cmp_int g x
  end.

Definition py_eq (a b : pynum) : bool :=
  match pynum_compare a b with Some Eq => true | _ => false end.
Definition py_lt (a b : pynum) : bool :=
  match pynum_compare a b with Some Lt => true | _ => false end.
Definition py_le (a b : pynum) : bool :=
  match pynum_compare a b with Some (Lt | Eq) => true | _ => false end.
Definition py_gt (a b : pynum) : bool := py_lt b a.

(** [a - 1] *)
Definition py_pred (a : pynum) : pynum :=
  match a with
  | PInt z => PInt (z - 1)
  | PFloat f => PFloat (float_sub f (S754_finite false 4503599627370496 (-52)))
  end.

(** The builtin [max(a, b)] keeps [a] unless [b > a]. *)
Definition py_max (a b : pynum) : pynum := if py_gt b a then b else a.

(** [z * f]: the integer is converted first. *)
Definition py_mul_int_float (z : Z) (f : float) : result float :=
  x ← float_of_int z; mret (float_mul x f).

(** ** Values *)

Inductive pyval :=
| PyNone
| PyBool (b : bool)
| PyInt (z : Z)
| PyFloat (f : float)
| PyStr (s : string)
| PyList (l : list pyval)
| PyTuple (l : list pyval)
| PyDict (d : gmap string pyval)
| PyObject (id : nat).

Definition isinstance_float (v : pyval) : bool :=
  match v with PyFloat _ => true | _ => false end.
Definition isinstance_list (v : pyval) : bool :=
  match v with PyList _ => true | _ => false end.
Definition isinstance_dict (v : pyval) : bool :=
  match v with PyDict _ => true | _ => false end.

(** [v > 0]; only numbers are ordered against an [int]. *)
Definition py_gt_zero (v : pyval) : result bool :=
  match v with
  | PyBool b => Ok b
  | PyInt z => Ok (0 <? z)
  | PyFloat f => Ok (py_gt (PFloat f) (PInt 0))
  | _ => Raise TypeError
  end.

(** [len(v)] *)
Definition py_len (v : pyval) : result Z :=
  match v with
  | PyStr s => Ok (Z.of_nat (String.length s))
  | PyList l | PyTuple l => Ok (Z.of_nat (length l))
  | PyDict d => Ok (Z.of_nat (size d))
  | _ => Raise TypeError
  end.

End Py.

(** * [callbacks/swa.py] *)
Module SWA.
Import Py.

(** ** Tensors, modules and the object store

    Tensor arithmetic is modelled exactly: a tensor is the list of its
    entries, taken in the rationals, and the operators act entry by entry.
    The 0-dimensional [long] tensor [n_averaged] is an integer. *)

Definition loc := nat.
Definition tensor := list Qc.

Definition tensor_add : tensor -> tensor -> tensor := zip_with Qcplus.
Definition tensor_sub : tensor -> tensor -> tensor := zip_with Qcminus.
Definition qz (n : Z) : Qc := Q2Qc (inject_Z n).
Definition tensor_div_int (a : tensor) (n : Z) : tensor :=
  (fun x => x / qz n)%Qc <$> a.
Definition zeros_like (a : tensor) : tensor := (fun _ => 0%Qc) <$> a.
Definition ones_like (a : tensor) : tensor := (fun _ => 1%Qc) <$> a.

(** State of a [_BatchNorm] layer; [momentum = None] means a cumulative
    moving average. *)
Record batch_norm := {
  running_mean : tensor;
  running_var : tensor;
  momentum : option float;
  num_batches_tracked : Z
}.

Inductive module :=
| PlainModule
| BatchNorm (bn : batch_norm).

Definition isinstance_BatchNorm (m : option module) : bool :=
  match m with Some (BatchNorm _) => true | _ => false end.

(** A model is known by the identities of its parameters and submodules,
    in traversal order. *)
Record LightningModule := {
  param_slots : list loc;
  module_slots : list loc;
  device : string
}.

(** Calls and assignments worth counting; the two [EvHook] marks are written
    by the host loop when it enters a hook. *)
Inductive event :=
| EvUpdateParameters (average_model model : LightningModule) (n_averaged : Z)
| EvTransferWeights (src_pl_module dst_pl_module : LightningModule)
| EvSwapScheduler
| EvResetBatchNorm
| EvResetMomenta
| EvHookEpochStart (epoch : Z)
| EvHookEpochEnd (epoch : Z).

(** The store of parameter tensors and module objects, addressed by
    identity, a bump allocator for [deepcopy], and the log of the calls
    made so far, the latest first. *)
Record world := {
  tensors : gmap loc tensor;
  module_objs : gmap loc module;
  next_loc : loc;
  trace : list event
}.

(** torch's [parameters()] and [modules()] yield every object once: they
    keep a memo set of the objects already seen. *)
Fixpoint dedup_from (seen : list loc) (l : list loc) : list loc :=
  match l with
  | [] => []
  | x :: r =>
      if existsb (Nat.eqb x) seen then dedup_from seen r
      else x :: dedup_from (x :: seen) r
  end.

Definition parameters (m : LightningModule) : list loc :=
  dedup_from [] (param_slots m).
Definition modules (m : LightningModule) : list loc :=
  dedup_from [] (module_slots m).

(** [deepcopy]: every object gets a fresh identity and a copy of its
    state. *)
Fixpoint copy_cells {A} (ls : list loc) (next : loc) (m : gmap loc A)
  : list loc * gmap loc A :=
  match ls with
  | [] => ([], m)
  | l :: ls' =>
      let m' := match m !! l with Some v => <[next := v]> m | None => m end in
      let '(ls2, m2) := copy_cells ls' (S next) m' in
      (next :: ls2, m2)
  end.

Definition deepcopy (m : LightningModule) (w : world) : LightningModule * world :=
  let ps := parameters m in
  let ms := modules m in
  let '(ps', ts') := copy_cells ps (next_loc w) (tensors w) in
  let '(ms', mo') :=
    copy_cells ms (next_loc w + length ps)%nat (module_objs w) in
  ({| param_slots := ps'; module_slots := ms'; device := device m |},
   {| tensors := ts'; module_objs := mo';
      next_loc := (next_loc w + length ps + length ms)%nat;
      trace := trace w |}).

(** ** Schedulers and the trainer *)

Inductive scheduler :=
| HostScheduler (id : nat)
| SWALR (optimizer : nat) (swa_lr : pyval) (anneal_epochs : Z)
        (anneal_strategy : string) (last_epoch : Z).

Record lr_scheduler_config := {
  sched : scheduler;
  sched_interval : string;
  sched_frequency : Z
}.

Record Trainer := {
  max_epochs : Z;
  current_epoch : Z;
  optimizers : list nat;
  lr_schedulers : list lr_scheduler_config;
  num_training_batches : Z;
  accumulate_grad_batches : Z;
  _skip_backward : bool;
  (** [len(trainer.train_dataloader)], [None] for a loader without
      [__len__] *)
  train_dataloader_len : option Z
}.

(** ** The callback object *)

Definition avg_function := tensor -> tensor -> Z -> tensor.

Inductive avg_fn_arg :=
| AvgNone
| AvgCallable (f : avg_function)
| AvgNotCallable (v : pyval).

Inductive device_arg :=
| DeviceNone
| TorchDevice (name : string)
| DeviceStr (s : string)
| DeviceOther (v : pyval).

(** Attributes that only a hook creates are [None] until then; reading
    one raises [AttributeError]. *)
Record StochasticWeightAveraging := {
  _swa_epoch_start : pynum;
  _swa_lrs : pyval;
  _annealing_epochs : Z;
  _annealing_strategy : string;
  _avg_fn : avg_function;
  _device : device_arg;
  _model_contains_batch_norm : option bool;
  _average_model : option LightningModule;
  _max_epochs : option Z;
  _swa_scheduler : option scheduler;
  n_averaged : option Z;
  momenta : option (gmap loc (option float));
  _accumulate_grad_batches : option Z
}.

Definition getattr {A} (name : string) (o : option A) : result A :=
  match o with
  | Some a => Ok a
  | None => Raise (AttributeError name)
  end.

(** [avg_fn] (static method) *)
Definition avg_fn : avg_function :=
  fun averaged_model_parameter model_parameter num_averaged =>
    tensor_add averaged_model_parameter
      (tensor_div_int (tensor_sub model_parameter averaged_model_parameter)
         (num_averaged + 1)).

Definition err_msg : string :=
  "swa_epoch_start should be a >0 integer or a float between 0 and 1.".

Definition swa_lrs_msg : string :=
  "swa_lrs should be a positive float or a list of positive float.".

(** [all(lr > 0 and isinstance(lr, float) for lr in swa_lrs)] *)
Fixpoint all_positive_floats (l : list pyval) : result bool :=
  match l with
  | [] => Ok true
  | lr :: rest =>
      b ← py_gt_zero lr;
      if b && isinstance_float lr then all_positive_floats rest else Ok false
  end.

Definition swa_lrs_rejected (swa_lrs : pyval) : result bool :=
  match swa_lrs with
  | PyFloat f => Ok (py_le (PFloat f) (PInt 0))
  | PyList l => negb <$> all_positive_floats l
  | _ => Ok true
  end.

Definition swa_epoch_start_rejected (swa_epoch_start : pynum) : bool :=
  match swa_epoch_start with
  | PInt z => z <? 1
  | PFloat f => negb (py_le (PInt 0) (PFloat f) && py_le (PFloat f) (PInt 1))
  end.

Definition __init__ (swa_epoch_start : pynum) (swa_lrs : pyval)
    (annealing_epochs : Z) (annealing_strategy : string)
    (avg_fn_ : avg_fn_arg) (device_ : device_arg)
  : result StochasticWeightAveraging :=
  if swa_epoch_start_rejected swa_epoch_start
  then Raise (MisconfigurationException err_msg)
  else
    bad_lrs ← swa_lrs_rejected swa_lrs;
    if bad_lrs : bool then Raise (MisconfigurationException swa_lrs_msg)
    else
      match avg_fn_, device_ with
      | AvgNotCallable _, _ =>
          Raise (MisconfigurationException "avg_fn should be callable.")
      | _, DeviceOther _ =>
          Raise (MisconfigurationException
                   "device is expected to be a torch.device or a str.")
      | _, _ =>
          Ok {| _swa_epoch_start := swa_epoch_start;
                _swa_lrs := swa_lrs;
                _annealing_epochs := annealing_epochs;
                _annealing_strategy := annealing_strategy;
                _avg_fn := match avg_fn_ with
                           | AvgCallable f => f
                           | _ => avg_fn
                           end;
                _device := device_;
                _model_contains_batch_norm := None;
                _average_model := None;
                _max_epochs := None;
                _swa_scheduler := None;
                n_averaged := None;
                momenta := None;
                _accumulate_grad_batches := None |}
      end.

(** [swa_start] and [swa_end] (properties, 0-based) *)
Definition swa_start (self : StochasticWeightAveraging) : pynum :=
  py_max (py_pred (_swa_epoch_start self)) (PInt 0).

Definition swa_end (self : StochasticWeightAveraging) : result Z :=
  e ← getattr "_max_epochs" (_max_epochs self); mret (e - 1).

Definition pl_module_contains_batch_norm (pl_module : LightningModule)
    (w : world) : bool :=
  existsb (fun l => isinstance_BatchNorm (module_objs w !! l))
          (modules pl_module).

(** ** Attribute assignment *)

Definition set_swa_epoch_start v (c : StochasticWeightAveraging) :=
  {| _swa_epoch_start := v; _swa_lrs := _swa_lrs c;
     _annealing_epochs := _annealing_epochs c;
     _annealing_strategy := _annealing_strategy c; _avg_fn := _avg_fn c;
     _device := _device c;
     _model_contains_batch_norm := _model_contains_batch_norm c;
     _average_model := _average_model c; _max_epochs := _max_epochs c;
     _swa_scheduler := _swa_scheduler c; n_averaged := n_averaged c;
     momenta := momenta c;
     _accumulate_grad_batches := _accumulate_grad_batches c |}.

Definition set_model_contains_batch_norm v (c : StochasticWeightAveraging) :=
  {| _swa_epoch_start := _swa_epoch_start c; _swa_lrs := _swa_lrs c;
     _annealing_epochs := _annealing_epochs c;
     _annealing_strategy := _annealing_strategy c; _avg_fn := _avg_fn c;
     _device := _device c;
     _model_contains_batch_norm := v;
     _average_model := _average_model c; _max_epochs := _max_epochs c;
     _swa_scheduler := _swa_scheduler c; n_averaged := n_averaged c;
     momenta := momenta c;
     _accumulate_grad_batches := _accumulate_grad_batches c |}.

Definition set_average_model v (c : StochasticWeightAveraging) :=
  {| _swa_epoch_start := _swa_epoch_start c; _swa_lrs := _swa_lrs c;
     _annealing_epochs := _annealing_epochs c;
     _annealing_strategy := _annealing_strategy c; _avg_fn := _avg_fn c;
     _device := _device c;
     _model_contains_batch_norm := _model_contains_batch_norm c;
     _average_model := v; _max_epochs := _max_epochs c;
     _swa_scheduler := _swa_scheduler c; n_averaged := n_averaged c;
     momenta := momenta c;
     _accumulate_grad_batches := _accumulate_grad_batches c |}.

Definition set_max_epochs_ v (c : StochasticWeightAveraging) :=
  {| _swa_epoch_start := _swa_epoch_start c; _swa_lrs := _swa_lrs c;
     _annealing_epochs := _annealing_epochs c;
     _annealing_strategy := _annealing_strategy c; _avg_fn := _avg_fn c;
     _device := _device c;
     _model_contains_batch_norm := _model_contains_batch_norm c;
     _average_model := _average_model c; _max_epochs := v;
     _swa_scheduler := _swa_scheduler c; n_averaged := n_averaged c;
     momenta := momenta c;
     _accumulate_grad_batches := _accumulate_grad_batches c |}.

Definition set_swa_scheduler v (c : StochasticWeightAveraging) :=
  {| _swa_epoch_start := _swa_epoch_start c; _swa_lrs := _swa_lrs c;
     _annealing_epochs := _annealing_epochs c;
     _annealing_strategy := _annealing_strategy c; _avg_fn := _avg_fn c;
     _device := _device c;
     _model_contains_batch_norm := _model_contains_batch_norm c;
     _average_model := _average_model c; _max_epochs := _max_epochs c;
     _swa_scheduler := v; n_averaged := n_averaged c;
     momenta := momenta c;
     _accumulate_grad_batches := _accumulate_grad_batches c |}.

Definition set_n_averaged v (c : StochasticWeightAveraging) :=
  {| _swa_epoch_start := _swa_epoch_start c; _swa_lrs := _swa_lrs c;
     _annealing_epochs := _annealing_epochs c;
     _annealing_strategy := _annealing_strategy c; _avg_fn := _avg_fn c;
     _device := _device c;
     _model_contains_batch_norm := _model_contains_batch_norm c;
     _average_model := _average_model c; _max_epochs := _max_epochs c;
     _swa_scheduler := _swa_scheduler c; n_averaged := v;
     momenta := momenta c;
     _accumulate_grad_batches := _accumulate_grad_batches c |}.

Definition set_momenta v (c : StochasticWeightAveraging) :=
  {| _swa_epoch_start := _swa_epoch_start c; _swa_lrs := _swa_lrs c;
     _annealing_epochs := _annealing_epochs c;
     _annealing_strategy := _annealing_strategy c; _avg_fn := _avg_fn c;
     _device := _device c;
     _model_contains_batch_norm := _model_contains_batch_norm c;
     _average_model := _average_model c; _max_epochs := _max_epochs c;
     _swa_scheduler := _swa_scheduler c; n_averaged := n_averaged c;
     momenta := v;
     _accumulate_grad_batches := _accumulate_grad_batches c |}.

Definition set_accumulate_grad_batches_ v (c : StochasticWeightAveraging) :=
  {| _swa_epoch_start := _swa_epoch_start c; _swa_lrs := _swa_lrs c;
     _annealing_epochs := _annealing_epochs c;
     _annealing_strategy := _annealing_strategy c; _avg_fn := _avg_fn c;
     _device := _device c;
     _model_contains_batch_norm := _model_contains_batch_norm c;
     _average_model := _average_model c; _max_epochs := _max_epochs c;
     _swa_scheduler := _swa_scheduler c; n_averaged := n_averaged c;
     momenta := momenta c;
     _accumulate_grad_batches := v |}.

Definition set_max_epochs v (t : Trainer) :=
  {| max_epochs := v; current_epoch := current_epoch t;
     optimizers := optimizers t; lr_schedulers := lr_schedulers t;
     num_training_batches := num_training_batches t;
     accumulate_grad_batches := accumulate_grad_batches t;
     _skip_backward := _skip_backward t;
     train_dataloader_len := train_dataloader_len t |}.

Definition set_current_epoch v (t : Trainer) :=
  {| max_epochs := max_epochs t; current_epoch := v;
     optimizers := optimizers t; lr_schedulers := lr_schedulers t;
     num_training_batches := num_training_batches t;
     accumulate_grad_batches := accumulate_grad_batches t;
     _skip_backward := _skip_backward t;
     train_dataloader_len := train_dataloader_len t |}.

Definition set_lr_schedulers v (t : Trainer) :=
  {| max_epochs := max_epochs t; current_epoch := current_epoch t;
     optimizers := optimizers t; lr_schedulers := v;
     num_training_batches := num_training_batches t;
     accumulate_grad_batches := accumulate_grad_batches t;
     _skip_backward := _skip_backward t;
     train_dataloader_len := train_dataloader_len t |}.

Definition set_num_training_batches v (t : Trainer) :=
  {| max_epochs := max_epochs t; current_epoch := current_epoch t;
     optimizers := optimizers t; lr_schedulers := lr_schedulers t;
     num_training_batches := v;
     accumulate_grad_batches := accumulate_grad_batches t;
     _skip_backward := _skip_backward t;
     train_dataloader_len := train_dataloader_len t |}.

Definition set_accumulate_grad_batches v (t : Trainer) :=
  {| max_epochs := max_epochs t; current_epoch := current_epoch t;
     optimizers := optimizers t; lr_schedulers := lr_schedulers t;
     num_training_batches := num_training_batches t;
     accumulate_grad_batches := v;
     _skip_backward := _skip_backward t;
     train_dataloader_len := train_dataloader_len t |}.

Definition set_skip_backward v (t : Trainer) :=
  {| max_epochs := max_epochs t; current_epoch := current_epoch t;
     optimizers := optimizers t; lr_schedulers := lr_schedulers t;
     num_training_batches := num_training_batches t;
     accumulate_grad_batches := accumulate_grad_batches t;
     _skip_backward := v;
     train_dataloader_len := train_dataloader_len t |}.

Definition set_sched v (e : lr_scheduler_config) :=
  {| sched := v; sched_interval := sched_interval e;
     sched_frequency := sched_frequency e |}.

Definition set_device v (m : LightningModule) :=
  {| param_slots := param_slots m; module_slots := module_slots m;
     device := v |}.

Definition log (ev : event) (w : world) : world :=
  {| tensors := tensors w; module_objs := module_objs w;
     next_loc := next_loc w; trace := ev :: trace w |}.

(** The calls in the order they were made. *)
Definition chronicle (w : world) : list event := rev (trace w).

(** ** Static methods on models *)

(** One turn of the loop of [update_parameters]: [p_swa_.copy_(src)]. *)
Definition update_step (n_averaged : Z) (avg_fn_ : avg_function)
    (ts : gmap loc tensor) (pair : loc * loc) : gmap loc tensor :=
  let p_swa := pair.1 in
  let p_model := pair.2 in
  let src := if n_averaged =? 0 then ts !!! p_model
             else avg_fn_ (ts !!! p_swa) (ts !!! p_model) n_averaged in
  <[p_swa := src]> ts.

(** [update_parameters]; the in-place [n_averaged += 1] on the caller's
    tensor is returned as the second component. *)
Definition update_parameters (average_model model : LightningModule)
    (n_averaged : Z) (avg_fn_ : avg_function) (w : world) : world * Z :=
  ({| tensors := foldl (update_step n_averaged avg_fn_) (tensors w)
                   (zip (parameters average_model) (parameters model));
      module_objs := module_objs w;
      next_loc := next_loc w;
      trace := EvUpdateParameters average_model model n_averaged :: trace w |},
   n_averaged + 1).

Definition transfer_step (ts : gmap loc tensor) (pair : loc * loc)
  : gmap loc tensor :=
  <[pair.2 := ts !!! pair.1]> ts.

Definition transfer_weights (src_pl_module dst_pl_module : LightningModule)
    (w : world) : world :=
  {| tensors := foldl transfer_step (tensors w)
                  (zip (parameters src_pl_module) (parameters dst_pl_module));
     module_objs := module_objs w;
     next_loc := next_loc w;
     trace := EvTransferWeights src_pl_module dst_pl_module :: trace w |}.

(** ** Batch-norm recalibration *)

(** What the loop body of [reset_batch_norm_and_save_state] leaves in a
    batch-norm module. *)
Definition reset_bn (bn : batch_norm) : batch_norm :=
  {| running_mean := zeros_like (running_mean bn);
     running_var := ones_like (running_var bn);
     momentum := None;
     num_batches_tracked := num_batches_tracked bn * 0 |}.

(** One turn of that loop, on the pair of [self.momenta] and the module
    store; the snapshot entry is written before the momentum is cleared. *)
Definition reset_step
    (acc : gmap loc (option float) * gmap loc module) (l : loc)
  : gmap loc (option float) * gmap loc module :=
  match acc.2 !! l with
  | Some (BatchNorm bn) =>
      (<[l := momentum bn]> acc.1, <[l := BatchNorm (reset_bn bn)]> acc.2)
  | _ => acc
  end.

Definition reset_loop (ms : list loc) (mo : gmap loc module)
  : gmap loc (option float) * gmap loc module :=
  foldl reset_step (∅, mo) ms.

Definition reset_batch_norm_and_save_state (average_model : LightningModule)
    (self : StochasticWeightAveraging) (w : world)
  : StochasticWeightAveraging * world :=
  let r := reset_loop (modules average_model) (module_objs w) in
  (set_momenta (Some r.1) self,
   {| tensors := tensors w; module_objs := r.2;
      next_loc := next_loc w; trace := EvResetBatchNorm :: trace w |}).

Definition set_momentum (v : option float) (m : module) : module :=
  match m with
  | BatchNorm bn =>
      BatchNorm {| running_mean := running_mean bn;
                   running_var := running_var bn;
                   momentum := v;
                   num_batches_tracked := num_batches_tracked bn |}
  | PlainModule => PlainModule
  end.

Definition reset_momenta (self : StochasticWeightAveraging) (w : world)
  : result world :=
  mom ← getattr "momenta" (momenta self);
  mret {| tensors := tensors w;
          module_objs :=
            map_fold (fun bn_module v mo => alter (set_momentum v) bn_module mo)
                     (module_objs w) mom;
          next_loc := next_loc w;
          trace := EvResetMomenta :: trace w |}.

(** ** Feeding source values to the averager *)

(** Training, seen from the callback: the source model's parameters are
    overwritten with new values. *)
Definition write_parameters (model : LightningModule) (values : list tensor)
    (w : world) : world :=
  {| tensors := foldl (fun ts pv => <[pv.1 := pv.2]> ts) (tensors w)
                  (zip (parameters model) values);
     module_objs := module_objs w;
     next_loc := next_loc w;
     trace := trace w |}.

(** The source model takes the given values in turn, and after each of
    them [update_parameters] is called with the default [avg_fn] and the
    counter it returned the time before. *)
Fixpoint feed (average_model model : LightningModule)
    (values : list (list tensor)) (n : Z) (w : world) : world * Z :=
  match values with
  | [] => (w, n)
  | v :: rest =>
      let r := update_parameters average_model model n avg_fn
                 (write_parameters model v w) in
      feed average_model model rest r.2 r.1
  end.


(** The arithmetic mean of a sequence of tensors. *)
Definition tensor_mean (xs : list tensor) : tensor :=
  match xs with
  | [] => []
  | x :: rest =>
      tensor_div_int (foldl tensor_add x rest) (Z.of_nat (length xs))
  end.

(** The averaged model owns its parameters: as a deep copy it shares none
    with the source model. *)
Definition separate (average_model model : LightningModule) : Prop :=
  ∀ p, p ∈ parameters average_model → p ∉ parameters model.

(** ** The hooks *)

Record state := {
  callback : StochasticWeightAveraging;
  trainer : Trainer;
  heap : world
}.

Definition item0 {A} (l : list A) : result A :=
  match l with
  | x :: _ => Ok x
  | [] => Raise IndexError
  end.

(** [self._device or pl_module.device] *)
Definition device_or (d : device_arg) (fallback : string) : string :=
  match d with
  | TorchDevice name => name
  | DeviceStr s => if String.eqb s "" then fallback else s
  | _ => fallback
  end.

Section Hooks.

(** [pytorch_lightning.utilities._PYTORCH_GREATER_EQUAL_1_6_0]: the name
    [SWALR] is bound only when it holds. *)
Variable _PYTORCH_GREATER_EQUAL_1_6_0 : bool.

Definition on_before_accelerator_backend_setup (pl_module : LightningModule)
    (s : state) : result state :=
  let copy := deepcopy pl_module (heap s) in
  let self := set_average_model (Some copy.1) (callback s) in
  let tr := trainer s in
  if (1 <? length (optimizers tr))%nat then
    Raise (MisconfigurationException
             "SWA currently not supported for more than 1 optimizer.")
  else if (1 <? length (lr_schedulers tr))%nat then
    Raise (MisconfigurationException
             "SWA currently not supported for more than 1 lr_scheduler.")
  else
    start ← match _swa_epoch_start self with
            | PFloat f =>
                x ← py_mul_int_float (max_epochs tr) f;
                k ← int_of_float x;
                mret (PInt k)
            | PInt z => mret (PInt z)
            end;
    let bn := pl_module_contains_batch_norm pl_module copy.2 in
    let self :=
      set_max_epochs_ (Some (max_epochs tr))
        (set_model_contains_batch_norm (Some bn)
           (set_swa_epoch_start start self)) in
    mret {| callback := self;
            trainer := if bn then set_max_epochs (max_epochs tr + 1) tr
                       else tr;
            heap := copy.2 |}.

(** The branch taken when [trainer.current_epoch == self.swa_start]. *)
Definition start_swa (pl_module : LightningModule) (s : state)
  : result state :=
  let self := callback s in
  let tr := trainer s in
  average_model ← getattr "_average_model" (_average_model self);
  let average_model :=
    set_device (device_or (_device self) (device pl_module)) average_model in
  entry ← item0 (lr_schedulers tr);
  if negb _PYTORCH_GREATER_EQUAL_1_6_0 then Raise (NameError "SWALR")
  else
    optimizer ← item0 (optimizers tr);
    let swa_scheduler :=
      SWALR optimizer (_swa_lrs self) (_annealing_epochs self)
        (_annealing_strategy self)
        (if String.eqb (_annealing_strategy self) "cos"
         then max_epochs tr else -1) in
    mret {| callback :=
              set_n_averaged (Some 0)
                (set_swa_scheduler (Some swa_scheduler)
                   (set_average_model (Some average_model) self));
            trainer :=
              set_lr_schedulers
                (set_sched swa_scheduler entry :: tail (lr_schedulers tr)) tr;
            heap := log EvSwapScheduler (heap s) |}.

(** The branch taken when
    [self.swa_start <= trainer.current_epoch <= self.swa_end]; note that it
    hands [self.avg_fn] to [update_parameters]. *)
Definition average_epoch (pl_module : LightningModule) (s : state)
  : result state :=
  let self := callback s in
  average_model ← getattr "_average_model" (_average_model self);
  n ← getattr "n_averaged" (n_averaged self);
  let r := update_parameters average_model pl_module n avg_fn (heap s) in
  mret {| callback := set_n_averaged (Some r.2) self;
          trainer := trainer s;
          heap := r.1 |}.

(** The branch taken when [trainer.current_epoch > self.swa_end]. *)
Definition start_batch_norm_epoch (pl_module : LightningModule) (s : state)
  : result state :=
  let self := callback s in
  let tr := trainer s in
  average_model ← getattr "_average_model" (_average_model self);
  let w := transfer_weights average_model pl_module (heap s) in
  let r := reset_batch_norm_and_save_state pl_module self w in
  let tr := set_num_training_batches (num_training_batches tr + 1)
              (set_skip_backward true tr) in
  let self :=
    set_accumulate_grad_batches_ (Some (accumulate_grad_batches tr)) r.1 in
  n ← match train_dataloader_len tr with
      | Some n => Ok n
      | None => Raise TypeError
      end;
  mret {| callback := self;
          trainer := set_accumulate_grad_batches n tr;
          heap := r.2 |}.

Definition on_train_epoch_start (pl_module : LightningModule) (s : state)
  : result state :=
  let cur := current_epoch (trainer s) in
  s ← (if py_eq (PInt cur) (swa_start (callback s))
       then start_swa pl_module s else mret s);
  in_window ← (if py_le (swa_start (callback s)) (PInt cur)
               then e ← swa_end (callback s); mret (cur <=? e)
               else mret false);
  s ← (if in_window : bool then average_epoch pl_module s else mret s);
  e ← swa_end (callback s);
  if e <? cur then start_batch_norm_epoch pl_module s else mret s.

Definition on_train_epoch_end (pl_module : LightningModule) (s : state)
  : result state :=
  let self := callback s in
  let tr := set_skip_backward false (trainer s) in
  let cur := current_epoch tr in
  e ← swa_end self;
  if (cur =? e) && negb (default false (_model_contains_batch_norm self)) then
    average_model ← getattr "_average_model" (_average_model self);
    mret {| callback := self; trainer := tr;
            heap := transfer_weights average_model pl_module (heap s) |}
  else if e <? cur then
    acc ← getattr "_accumulate_grad_batches" (_accumulate_grad_batches self);
    let tr := set_num_training_batches (num_training_batches tr - 1)
                (set_accumulate_grad_batches acc tr) in
    w ← reset_momenta self (heap s);
    mret {| callback := self; trainer := tr; heap := w |}
  else
    mret {| callback := self; trainer := tr; heap := heap s |}.

(** ** The host loop

    Modelled from the spec: the trainer that drives the hooks is not among
    the sources. Sections 4.1, 5 and 8 of the spec fix its contract: the
    setup hook runs once before the first epoch, the loop then runs the
    epochs [0 .. max_epochs - 1] with the total it reads after that hook,
    and each epoch calls [on_train_epoch_start], trains, and calls
    [on_train_epoch_end], one hook at a time. Training is any overwrite of
    the host model's parameters. The states after the two hooks of an epoch
    are recorded, and entering a hook leaves a mark in the log. *)

Definition host_training (pl_module : LightningModule) (values : list tensor)
    (s : state) : state :=
  {| callback := callback s;
     trainer := trainer s;
     heap := write_parameters pl_module values (heap s) |}.

Definition enter_epoch (epoch : Z) (s : state) : state :=
  {| callback := callback s;
     trainer := set_current_epoch epoch (trainer s);
     heap := log (EvHookEpochStart epoch) (heap s) |}.

Definition leave_epoch (epoch : Z) (s : state) : state :=
  {| callback := callback s;
     trainer := trainer s;
     heap := log (EvHookEpochEnd epoch) (heap s) |}.

Definition run_epoch (pl_module : LightningModule)
    (training : Z -> list tensor) (epoch : Z) (s : state)
  : result (state * state) :=
  s1 ← on_train_epoch_start pl_module (enter_epoch epoch s);
  s2 ← on_train_epoch_end pl_module
         (leave_epoch epoch (host_training pl_module (training epoch) s1));
  mret (s1, s2).

Fixpoint run_epochs (pl_module : LightningModule)
    (training : Z -> list tensor) (epochs : list Z) (s : state)
  : result (list state) :=
  match epochs with
  | [] => mret []
  | epoch :: rest =>
      r ← run_epoch pl_module training epoch s;
      more ← run_epochs pl_module training rest r.2;
      mret (r.1 :: r.2 :: more)
  end.

Definition epoch_range (total : Z) : list Z :=
  Z.of_nat <$> seq 0 (Z.to_nat total).

Definition fit (pl_module : LightningModule) (training : Z -> list tensor)
    (s : state) : result (list state) :=
  s0 ← on_before_accelerator_backend_setup pl_module s;
  history ← run_epochs pl_module training
              (epoch_range (max_epochs (trainer s0))) s0;
  mret (s0 :: history).

(** What can happen to a state once it exists: a hook runs to its end, or
    the host loop changes the trainer or the store; the callback object is
    the callback's alone. *)
Inductive hook := OnBeforeSetup | OnTrainEpochStart | OnTrainEpochEnd.

Definition run_hook (h : hook) (pl_module : LightningModule) (s : state)
  : result state :=
  match h with
  | OnBeforeSetup => on_before_accelerator_backend_setup pl_module s
  | OnTrainEpochStart => on_train_epoch_start pl_module s
  | OnTrainEpochEnd => on_train_epoch_end pl_module s
  end.

Inductive afterward (s : state) : state -> Prop :=
| afterward_now : afterward s s
| afterward_hook h pl_module s1 s2 :
    afterward s s1 -> run_hook h pl_module s1 = Ok s2 -> afterward s s2
| afterward_host s1 s2 :
    afterward s s1 -> callback s2 = callback s1 -> afterward s s2.

End Hooks.

(** ** Vocabulary of the specification *)

(** The same state with another averaging function configured. *)
Definition with_avg_fn (f : avg_function) (s : state) : state :=
  {| callback :=
       {| _swa_epoch_start := _swa_epoch_start (callback s);
          _swa_lrs := _swa_lrs (callback s);
          _annealing_epochs := _annealing_epochs (callback s);
          _annealing_strategy := _annealing_strategy (callback s);
          _avg_fn := f;
          _device := _device (callback s);
          _model_contains_batch_norm :=
            _model_contains_batch_norm (callback s);
          _average_model := _average_model (callback s);
          _max_epochs := _max_epochs (callback s);
          _swa_scheduler := _swa_scheduler (callback s);
          n_averaged := n_averaged (callback s);
          momenta := momenta (callback s);
          _accumulate_grad_batches := _accumulate_grad_batches (callback s) |};
     trainer := trainer s;
     heap := heap s |}.

(** "A positive float" and "a list of positive floats" ([swa_lrs]). *)
Definition positive_float (v : pyval) : Prop :=
  ∃ f, v = PyFloat f ∧ py_gt (PFloat f) (PInt 0) = true.

Definition list_of_positive_floats (v : pyval) : Prop :=
  ∃ l, v = PyList l ∧ Forall positive_float l.

Definition is_number (v : pyval) : bool :=
  match v with
  | PyBool _ | PyInt _ | PyFloat _ => true
  | _ => false
  end.

(** Every element of a list can be ordered against [0]. *)
Definition numbers_only (v : pyval) : Prop :=
  match v with
  | PyList l => forallb is_number l = true
  | _ => True
  end.

(** The other arguments of [__init__] pass its checks. *)
Definition avg_fn_accepted (a : avg_fn_arg) : bool :=
  match a with AvgNotCallable _ => false | _ => true end.

Definition device_accepted (d : device_arg) : bool :=
  match d with DeviceOther _ => false | _ => true end.

(** What the first two branches of [on_train_epoch_start] leave alone. *)
Definition same_bookkeeping (s s' : state) : Prop :=
  num_training_batches (trainer s') = num_training_batches (trainer s) ∧
  accumulate_grad_batches (trainer s') = accumulate_grad_batches (trainer s) ∧
  train_dataloader_len (trainer s') = train_dataloader_len (trainer s) ∧
  current_epoch (trainer s') = current_epoch (trainer s) ∧
  max_epochs (trainer s') = max_epochs (trainer s) ∧
  _max_epochs (callback s') = _max_epochs (callback s) ∧
  _swa_epoch_start (callback s') = _swa_epoch_start (callback s) ∧
  _model_contains_batch_norm (callback s')
  = _model_contains_batch_norm (callback s).

(** A run of the first end-to-end scenario of section 8 under way: the
    window is resolved to epochs 7 to 9 of 10, the model has no batch-norm
    layer, and [am], [n], [scheds] and [t] are the averaged model, the
    averaging counter, the trainer's schedulers and the log. *)
Record averaging_run (o : nat) (swa_lrs : pyval) (ae : Z) (strat : string)
    (dev : device_arg) (s : state) (am : LightningModule) (n : option Z)
    (scheds : list lr_scheduler_config) (t : list event) : Prop := {
  run_start : _swa_epoch_start (callback s) = PInt 8;
  run_max : _max_epochs (callback s) = Some 10;
  run_bn : _model_contains_batch_norm (callback s) = Some false;
  run_model : _average_model (callback s) = Some am;
  run_device : _device (callback s) = dev;
  run_lrs : _swa_lrs (callback s) = swa_lrs;
  run_anneal : _annealing_epochs (callback s) = ae;
  run_strategy : _annealing_strategy (callback s) = strat;
  run_total : max_epochs (trainer s) = 10;
  run_optimizer : optimizers (trainer s) = [o];
  run_counter : n_averaged (callback s) = n;
  run_schedulers : lr_schedulers (trainer s) = scheds;
  run_trace : trace (heap s) = t
}.




End SWA.

(** * [plugins/training_type/deepspeed.py] *)
Module DeepSpeed.
Import Py.

(** ** [int(s)] on a string

    Base 10: surrounding white space, an optional sign, then digits that
    single underscores may separate. Environment strings are taken to be
    ASCII text. *)

Definition is_space (c : ascii) : bool :=
  let n := nat_of_ascii c in
  ((9 <=? n) && (n <=? 13) || (28 <=? n) && (n <=? 32))%nat.

Fixpoint lstrip (l : list ascii) : list ascii :=
  match l with
  | c :: r => if is_space c then lstrip r else l
  | [] => []
  end.

Definition strip (l : list ascii) : list ascii :=
  rev (lstrip (rev (lstrip l))).

Definition digit_of (c : ascii) : option Z :=
  let n := nat_of_ascii c in
  if ((48 <=? n) && (n <=? 57))%nat then Some (Z.of_nat (n - 48)) else None.

Fixpoint parse_digits (acc : Z) (after_digit : bool) (l : list ascii)
  : option Z :=
  match l with
  | [] => if after_digit then Some acc else None
  | c :: r =>
      match digit_of c with
      | Some d => parse_digits (acc * 10 + d) true r
      | None =>
          if Ascii.eqb c "_"%char && after_digit then parse_digits acc false r
          else None
      end
  end.

Definition parse_int (s : string) : option Z :=
  match strip (list_ascii_of_string s) with
  | c :: r =>
      if Ascii.eqb c "-"%char then Z.opp <$> parse_digits 0 false r
      else if Ascii.eqb c "+"%char then parse_digits 0 false r
      else parse_digits 0 false (c :: r)
  | [] => None
  end.

Definition int_of_string (s : string) : result Z :=
  match parse_int s with
  | Some z => Ok z
  | None => Raise ValueError
  end.

(** [l[i]], with Python's negative indices *)
Definition py_index {A} (l : list A) (i : Z) : result A :=
  let n := Z.of_nat (length l) in
  let j := if i <? 0 then i + n else i in
  if (j <? 0) || (n <=? j) then Raise IndexError
  else match l !! Z.to_nat j with
       | Some a => Ok a
       | None => Raise IndexError
       end.

(** ** Collaborators and state *)

Inductive AMPType := NATIVE | APEX.

(** What the plugin reads from the [LightningModule] and its trainer. *)
Record LightningModule := {
  configure_optimizers : pyval;
  batch_size : pyval;
  accumulate_grad_batches : pyval;
  gradient_clip_val : pyval;
  amp_type : AMPType;
  amp_level : pyval;
  precision : Z;
  training : bool
}.

Record DeepSpeedPlugin := {
  parallel_devices : list string;
  on_gpu : bool;
  config : gmap string pyval;
  _config_initialized : bool;
  model : pyval;
  optimizer : option pyval;
  scheduler : option pyval;
  global_rank : option Z;
  world_size : option Z;
  local_rank : option Z;
  dist_rank : option Z;
  dist_device : option string
}.

(** The process and the host loop around the plugin. *)
Record host := {
  environ : gmap string string;
  lightning_module : LightningModule;
  trainer_optimizers : list pyval;
  trainer_lr_schedulers : list (gmap string pyval);
  rank_zero_only_rank : option Z;
  global_seed : option Z;
  model_device : option string
}.

Record state := {
  plugin : DeepSpeedPlugin;
  env : host
}.

Definition getattr {A} (name : string) (o : option A) : result A :=
  match o with
  | Some a => Ok a
  | None => Raise (AttributeError name)
  end.

(** [os.environ[key]] *)
Definition environ_getitem (e : gmap string string) (key : string)
  : result string :=
  match e !! key with
  | Some v => Ok v
  | None => Raise (KeyError key)
  end.

Definition with_config (c : gmap string pyval) (p : DeepSpeedPlugin) :=
  {| parallel_devices := parallel_devices p; on_gpu := on_gpu p;
     config := c; _config_initialized := _config_initialized p;
     model := model p; optimizer := optimizer p; scheduler := scheduler p;
     global_rank := global_rank p; world_size := world_size p;
     local_rank := local_rank p; dist_rank := dist_rank p;
     dist_device := dist_device p |}.

Definition with_optimizer_scheduler (o s : pyval) (p : DeepSpeedPlugin) :=
  {| parallel_devices := parallel_devices p; on_gpu := on_gpu p;
     config := config p; _config_initialized := _config_initialized p;
     model := model p; optimizer := Some o; scheduler := Some s;
     global_rank := global_rank p; world_size := world_size p;
     local_rank := local_rank p; dist_rank := dist_rank p;
     dist_device := dist_device p |}.

Definition with_config_initialized (b : bool) (p : DeepSpeedPlugin) :=
  {| parallel_devices := parallel_devices p; on_gpu := on_gpu p;
     config := config p; _config_initialized := b;
     model := model p; optimizer := optimizer p; scheduler := scheduler p;
     global_rank := global_rank p; world_size := world_size p;
     local_rank := local_rank p; dist_rank := dist_rank p;
     dist_device := dist_device p |}.

Definition with_model (m : pyval) (p : DeepSpeedPlugin) :=
  {| parallel_devices := parallel_devices p; on_gpu := on_gpu p;
     config := config p; _config_initialized := _config_initialized p;
     model := m; optimizer := optimizer p; scheduler := scheduler p;
     global_rank := global_rank p; world_size := world_size p;
     local_rank := local_rank p; dist_rank := dist_rank p;
     dist_device := dist_device p |}.

Definition with_ranks (g w l : Z) (p : DeepSpeedPlugin) :=
  {| parallel_devices := parallel_devices p; on_gpu := on_gpu p;
     config := config p; _config_initialized := _config_initialized p;
     model := model p; optimizer := optimizer p; scheduler := scheduler p;
     global_rank := Some g; world_size := Some w; local_rank := Some l;
     dist_rank := dist_rank p; dist_device := dist_device p |}.


(** ** Configuration *)

(** [a, b = v] *)
Definition unpack2 (v : pyval) : result (pyval * pyval) :=
  match v with
  | PyTuple [a; b] | PyList [a; b] => Ok (a, b)
  | PyTuple _ | PyList _ => Raise ValueError
  | PyDict d =>
      match map_to_list d with
      | [(k1, _); (k2, _)] => Ok (PyStr k1, PyStr k2)
      | _ => Raise ValueError
      end
  | PyStr (String a (String b EmptyString)) =>
      Ok (PyStr (String a EmptyString), PyStr (String b EmptyString))
  | PyStr _ => Raise ValueError
  | _ => Raise TypeError
  end.

(** [v.items()[0]]: a [dict_items] view cannot be subscripted, and only a
    [dict] has [items]. *)
Definition items_getitem0 (v : pyval) : result (string * pyval) :=
  match v with
  | PyDict _ => Raise TypeError
  | _ => Raise (AttributeError "items")
  end.

Definition single_msg : string :=
  "DeepSpeed currently only supports single optimizer, single scheduler.".

Definition _format_optimizer_config (m : LightningModule)
    (self : DeepSpeedPlugin) : result DeepSpeedPlugin :=
  if negb (bool_decide (is_Some (config self !! "optimizer"))) then
    os ← unpack2 (configure_optimizers m);
    let self := with_optimizer_scheduler os.1 os.2 self in
    if negb (isinstance_dict os.1 || isinstance_dict os.2) then
      Raise (MisconfigurationException
               "If you have not specified an optimizer or scheduler within the DeepSpeed config then you must return a dict from `configure_optimizers` within the LightningModule. See x for more information.")
    else
      n_opt ← py_len os.1;
      many ← (if negb (n_opt =? 1) then mret true
              else n_sched ← py_len os.2; mret (n_sched =? 1));
      if many : bool then Raise (MisconfigurationException single_msg)
      else
        o ← items_getitem0 os.1;
        s ← items_getitem0 os.2;
        mret (with_config
                (<["scheduler" :=
                     PyDict (<["type" := PyStr s.1]>
                               (<["params" := s.2]> ∅))]>
                   (<["optimizer" :=
                        PyDict (<["type" := PyStr o.1]>
                                  (<["params" := o.2]> ∅))]>
                      (<["zero_allow_untested_optimizer" := PyBool true]>
                         (config self))))
                self)
  else mret self.

Definition _format_batch_size_grad_accum_config (m : LightningModule)
    (self : DeepSpeedPlugin) : result DeepSpeedPlugin :=
  let has k := bool_decide (is_Some (config self !! k)) in
  if has "train_batch_size" || has "train_micro_batch_size_per_gpu" then
    Raise (MisconfigurationException
             "Within the DeepSpeed config, do not set train_batch_size or train_micro_batch_size_per_gpu as these will be passed from the data-loader.")
  else if has "gradient_accumulation_steps" then
    Raise (MisconfigurationException
             "Within the DeepSpeed config, do not set gradient_accumulation_steps as this will be set via accumulate_grad_batches=x argument passed via the Lightning Trainer.")
  else
    let c := <["gradient_accumulation_steps" := accumulate_grad_batches m]>
               (<["train_micro_batch_size_per_gpu" := batch_size m]>
                  (config self)) in
    mret (with_config
            (if has "gradient_clipping" then c
             else <["gradient_clipping" := gradient_clip_val m]> c)
            self).

Definition _format_precision_config (m : LightningModule)
    (self : DeepSpeedPlugin) : DeepSpeedPlugin :=
  let has k := bool_decide (is_Some (config self !! k)) in
  if precision m =? 16 then
    match amp_type m with
    | NATIVE =>
        if negb (has "amp") then
          with_config
            (<["fp16" := PyDict (<["enabled" := PyBool true]> ∅)]>
               (config self)) self
        else self
    | APEX =>
        if negb (has "apex") then
          with_config
            (<["amp" := PyDict (<["enabled" := PyBool true]>
                                  (<["opt_level" := amp_level m]> ∅))]>
               (config self)) self
        else self
    end
  else self.

Definition _format_config (m : LightningModule) (self : DeepSpeedPlugin)
  : result DeepSpeedPlugin :=
  if bool_decide (config self = ∅) then
    Raise (MisconfigurationException
             "To use DeepSpeed you must pass in a deepspeed config object or path to an object.todo: Doc Link.")
  else
    self ← _format_optimizer_config m self;
    self ← _format_batch_size_grad_accum_config m self;
    mret (_format_precision_config m self).

Definition configure_scheduler (lr_scheduler : pyval)
  : list (gmap string pyval) :=
  [ <["scheduler" := lr_scheduler]>
      (<["name" := PyNone]>
         (<["interval" := PyStr "epoch"]>
            (<["frequency" := PyInt 1]>
               (<["reduce_on_plateau" := PyBool false]>
                  (<["monitor" := PyNone]>
                     (<["strict" := PyBool true]> ∅)))))) ].

(** ** The lifecycle *)


Definition root_device (self : DeepSpeedPlugin) : result string :=
  i ← getattr "local_rank" (local_rank self);
  py_index (parallel_devices self) i.

Section Engine.

(** The external engine: [deepspeed.init_distributed(backend)] and
    [deepspeed.initialize(...)], which answers with the wrapped model, the
    optimizer and the scheduler. *)
Variable init_distributed : string -> result unit.
Variable initialize :
  Z -> pyval -> Z -> gmap string pyval -> result (pyval * pyval * pyval).


Definition init_deepspeed (s : state) : result state :=
  let m := lightning_module (env s) in
  self ← (if negb (_config_initialized (plugin s)) then
            self ← _format_config m (plugin s);
            mret (with_config_initialized true self)
          else mret (plugin s));
  rank ← getattr "local_rank" (local_rank self);
  r ← initialize rank (model self) (precision m) (config self);
  let h := env s in
  mret {| plugin := with_model r.1.1 self;
          env := if training m then
                   {| environ := environ h;
                      lightning_module := m;
                      trainer_optimizers := [r.1.2];
                      trainer_lr_schedulers := configure_scheduler r.2;
                      rank_zero_only_rank := rank_zero_only_rank h;
                      global_seed := global_seed h;
                      model_device := model_device h |}
                 else h |}.


End Engine.

(** ** Vocabulary of the specification *)





End DeepSpeed.


(** * Concrete objects

    A store with two parameters and three modules, two of them batch-norm
    layers; models over it; a trainer set for ten epochs. *)
Module Fixtures.
Import Py SWA.

Definition ints (l : list Z) : tensor := (fun z => Q2Qc (inject_Z z)) <$> l.

Definition bn_a : batch_norm :=
  {| running_mean := ints [1; 2]; running_var := ints [3; 4];
     momentum := Some (float_lit 1 10); num_batches_tracked := 7 |}.

Definition bn_b : batch_norm :=
  {| running_mean := ints [5]; running_var := ints [6];
     momentum := None; num_batches_tracked := 2 |}.

Definition demo_world : world :=
  {| tensors := <[0%nat := ints [1; 2]]> (<[1%nat := ints [3]]> ∅);
     module_objs :=
       <[10%nat := PlainModule]>
         (<[11%nat := BatchNorm bn_a]> (<[12%nat := BatchNorm bn_b]> ∅));
     next_loc := 13%nat;
     trace := [] |}.

Definition bn_model : LightningModule :=
  {| param_slots := [0%nat; 1%nat]; module_slots := [10%nat; 11%nat; 12%nat];
     device := "cuda:0" |}.

Definition plain_model : LightningModule :=
  {| param_slots := [0%nat; 1%nat]; module_slots := [10%nat];
     device := "cuda:0" |}.

Definition demo_callback : StochasticWeightAveraging :=
  {| _swa_epoch_start := PInt 8;
     _swa_lrs := PyFloat (float_lit 5 100);
     _annealing_epochs := 10;
     _annealing_strategy := "cos";
     _avg_fn := avg_fn;
     _device := TorchDevice "cpu";
     _model_contains_batch_norm := None;
     _average_model := None;
     _max_epochs := None;
     _swa_scheduler := None;
     n_averaged := None;
     momenta := None;
     _accumulate_grad_batches := None |}.

(** The averaged copy that [deepcopy] makes of [plain_model], and the store
    that holds it. *)
Definition copy_model : LightningModule :=
  (deepcopy plain_model demo_world).1.


Definition host_entry : lr_scheduler_config :=
  {| sched := HostScheduler 0; sched_interval := "epoch";
     sched_frequency := 1 |}.

Definition demo_trainer : Trainer :=
  {| max_epochs := 10; current_epoch := 0; optimizers := [0%nat];
     lr_schedulers := [host_entry]; num_training_batches := 5;
     accumulate_grad_batches := 1; _skip_backward := false;
     train_dataloader_len := Some 5 |}.

(** The callback as [__init__] leaves it for [swa_epoch_start=0.8]. *)
Definition fraction_callback : StochasticWeightAveraging :=
  set_swa_epoch_start (PFloat (float_lit 8 10)) demo_callback.

Definition fraction_state : state :=
  {| callback := fraction_callback; trainer := demo_trainer;
     heap := demo_world |}.

(** [swa_epoch_start=0.0] *)
Definition zero_start_state : state :=
  {| callback := set_swa_epoch_start (PFloat (S754_zero false)) demo_callback;
     trainer := demo_trainer; heap := demo_world |}.

Definition demo_training (epoch : Z) : list tensor :=
  [ints [epoch; 2 * epoch]; ints [epoch + 1]].

(** A user-supplied averaging function: keep the latest value. *)
Definition latest_only : avg_function := fun _ src _ => src.

Definition latest_only_state : state :=
  {| callback := set_swa_epoch_start (PInt 1)
                   {| _swa_epoch_start := PInt 1;
                      _swa_lrs := PyFloat (float_lit 5 100);
                      _annealing_epochs := 10;
                      _annealing_strategy := "cos";
                      _avg_fn := latest_only;
                      _device := TorchDevice "cpu";
                      _model_contains_batch_norm := None;
                      _average_model := None;
                      _max_epochs := None;
                      _swa_scheduler := None;
                      n_averaged := None;
                      momenta := None;
                      _accumulate_grad_batches := None |};
     trainer := set_max_epochs 2 demo_trainer;
     heap := demo_world |}.

Definition constant_training (epoch : Z) : list tensor :=
  [ints [3; 6]; ints [5]].

(** The extra epoch of a model with batch-norm layers, about to start:
    ten epochs were asked for and the loop counts eleven. *)
Definition recalibration_state : state :=
  {| callback :=
       set_average_model (Some (deepcopy bn_model demo_world).1)
         (set_model_contains_batch_norm (Some true)
            (set_max_epochs_ (Some 10) demo_callback));
     trainer := set_current_epoch 10 (set_max_epochs 11 demo_trainer);
     heap := (deepcopy bn_model demo_world).2 |}.

End Fixtures.

(** * Concrete objects for the DeepSpeed plugin *)
Module DSFixtures.
Import Py DeepSpeed.

Definition adam : gmap string pyval :=
  {[ "Adam" := PyDict {[ "lr" := PyFloat (float_lit 1 1000) ]} ]}.

Definition warmup : gmap string pyval :=
  {[ "WarmupLR" := PyDict {[ "warmup_num_steps" := PyInt 100 ]} ]}.

Definition demo_module : LightningModule :=
  {| configure_optimizers := PyTuple [PyDict adam; PyDict warmup];
     batch_size := PyInt 32;
     accumulate_grad_batches := PyInt 1;
     gradient_clip_val := PyInt 0;
     amp_type := NATIVE;
     amp_level := PyStr "O2";
     precision := 16;
     training := true |}.

Definition demo_plugin : DeepSpeedPlugin :=
  {| parallel_devices := ["cuda:0"; "cuda:1"];
     on_gpu := true;
     config := {[ "zero_optimization" := PyDict {[ "stage" := PyInt 2 ]} ]};
     _config_initialized := false;
     model := PyObject 0;
     optimizer := None;
     scheduler := None;
     global_rank := None;
     world_size := None;
     local_rank := None;
     dist_rank := None;
     dist_device := None |}.


Definition ready_engine
  : Z → pyval → Z → gmap string pyval → result (pyval * pyval * pyval) :=
  fun _ m _ _ => Ok (PyObject 1, PyObject 2, PyObject 3).
End DSFixtures.


(** * The schedule of a whole run *)
Module SWASchedule.
Import Py SWA.

(** ** Vocabulary for a whole run *)

(** The objects of the model were allocated before [next_loc]: the fresh
    identities that [deepcopy] hands out are not theirs. *)
Definition allocated (m : LightningModule) (w : world) : Prop :=
  (∀ p : loc, p ∈ param_slots m →
        (p < next_loc w)%nat ∧ is_Some (tensors w !! p)) ∧
  (∀ l : loc, l ∈ module_slots m →
        (l < next_loc w)%nat ∧ is_Some (module_objs w !! l)).

Section Schedule.

(** The window [a .. z] (0-based, both ends included), whether the model
    has batch-norm layers, the averaged model as [deepcopy] made it and as
    [start_swa] moved it, and the host model. *)
Variables (a z : Z) (bn : bool).
Variables (copy moved pl : LightningModule).

Definition averaged_at (e : Z) : LightningModule :=
  if a <=? e then moved else copy.

(** What epoch [e] adds to the log. *)
Definition epoch_events (e : Z) : list event :=
  [EvHookEpochStart e]
  ++ (if e =? a then [EvSwapScheduler] else [])
  ++ (if (a <=? e) && (e <=? z)
      then [EvUpdateParameters moved pl (e - a)] else [])
  ++ (if z <? e
      then [EvTransferWeights (averaged_at e) pl; EvResetBatchNorm] else [])
  ++ [EvHookEpochEnd e]
  ++ (if (e =? z) && negb bn then [EvTransferWeights (averaged_at e) pl]
      else if z <? e then [EvResetMomenta] else []).

(** What epoch [e] does to the tensors of the store, [training] being what
    the host loop writes. *)
Definition epoch_store (training : Z → list tensor) (e : Z) (w : world)
  : world :=
  let w1 := if (a <=? e) && (e <=? z)
            then (update_parameters moved pl (e - a) avg_fn w).1 else w in
  let w2 := if z <? e then transfer_weights (averaged_at e) pl w1 else w1 in
  let w3 := write_parameters pl (training e) w2 in
  if (e =? z) && negb bn then transfer_weights (averaged_at e) pl w3 else w3.

(** The number of calls of [update_parameters] before epoch [e]. *)
Definition updates_before (e : Z) : Z := Z.max 0 (Z.min e (z + 1) - a).

End Schedule.

(** The 0-based window and the number of epochs the loop runs, from the
    resolved [_swa_epoch_start] and the [max_epochs] asked for. *)
Definition first_epoch (k : Z) : Z := Z.max (k - 1) 0.
Definition last_epoch (E : Z) : Z := E - 1.
Definition epochs_run (E : Z) (bn : bool) : Z := E + (if bn then 1 else 0).

(** The scheduler entry once [start_swa] has put the annealing schedule in
    the place of the host's; [total] is [trainer.max_epochs] then. *)
Definition swa_entry (o : nat) (cb : StochasticWeightAveraging) (total : Z)
    (entry : lr_scheduler_config) : lr_scheduler_config :=
  set_sched (SWALR o (_swa_lrs cb) (_annealing_epochs cb)
               (_annealing_strategy cb)
               (if String.eqb (_annealing_strategy cb) "cos"
                then total else -1)) entry.

(** A run under way, between two hooks: what [on_before_accelerator_backend_setup]
    resolved ([k], [E], [bn]), what [__init__] stored ([cb]) and what the trainer
    held then ([tr]) are still in place; [am], [n] and [scheds] are the
    averaged model, the counter and the schedulers; [t] is the log and [w]
    a store with the same tensors. *)
Record running (k E : Z) (bn : bool) (o : nat)
    (cb : StochasticWeightAveraging) (tr : Trainer)
    (am : LightningModule) (n : option Z)
    (scheds : list lr_scheduler_config) (s : state) (t : list event)
    (w : world) : Prop := {
  at_start : _swa_epoch_start (callback s) = PInt k;
  at_max : _max_epochs (callback s) = Some E;
  at_bn : _model_contains_batch_norm (callback s) = Some bn;
  at_model : _average_model (callback s) = Some am;
  at_device : _device (callback s) = _device cb;
  at_lrs : _swa_lrs (callback s) = _swa_lrs cb;
  at_anneal : _annealing_epochs (callback s) = _annealing_epochs cb;
  at_strategy : _annealing_strategy (callback s) = _annealing_strategy cb;
  at_counter : n_averaged (callback s) = n;
  at_total : max_epochs (trainer s) = epochs_run E bn;
  at_optimizer : optimizers (trainer s) = [o];
  at_schedulers : lr_schedulers (trainer s) = scheds;
  at_batches : num_training_batches (trainer s) = num_training_batches tr;
  at_accumulate :
    accumulate_grad_batches (trainer s) = accumulate_grad_batches tr;
  at_loader : train_dataloader_len (trainer s) = train_dataloader_len tr;
  at_trace : trace (heap s) = t;
  at_tensors : tensors (heap s) = tensors w
}.

End SWASchedule.

(** * Concrete objects for whole runs and for single hooks *)
Module RunFixtures.
Import Py SWA SWASchedule Fixtures.

(** A callback that is to start averaging in the [k]-th epoch, and a
    trainer set for three epochs. *)
Definition start_at (k : Z) : StochasticWeightAveraging :=
  set_swa_epoch_start (PInt k) demo_callback.

Definition short_trainer : Trainer := set_max_epochs 3 demo_trainer.

End RunFixtures.

Module HookFixtures.
Import Py SWA SWASchedule Fixtures.

(** A state of [bn_model]'s run that no hook has seen yet, and the first
    epoch of the window of [recalibration_state]'s callback, about to
    start on a trainer without schedulers. *)
Definition fresh_state : state :=
  {| callback := demo_callback; trainer := demo_trainer; heap := demo_world |}.


End HookFixtures.

(** * More concrete objects for the DeepSpeed plugin *)
Module DSReady.
Import Py DeepSpeed DSFixtures.

(** [configure_optimizers] returns one optimizer definition and no
    scheduler. *)
Definition lone_module : LightningModule :=
  {| configure_optimizers := PyTuple [PyDict adam; PyNone];
     batch_size := PyInt 32;
     accumulate_grad_batches := PyInt 1;
     gradient_clip_val := PyInt 0;
     amp_type := APEX;
     amp_level := PyStr "O2";
     precision := 16;
     training := true |}.

(** A config that names its optimizer, and a user's own ["amp"] entry. *)
Definition ready_config : gmap string pyval :=
  {[ "optimizer" := PyDict {[ "type" := PyStr "Adam" ]};
     "amp" := PyDict {[ "enabled" := PyBool false ]} ]}.

Definition ready_plugin : DeepSpeedPlugin := with_config ready_config demo_plugin.

(** All three rank variables are set; the process is the second of two. *)
Definition ready_state : state :=
  {| plugin := ready_plugin;
     env := {| environ := {[ "RANK" := "1"; "WORLD_SIZE" := "2";
                             "LOCAL_RANK" := "1" ]};
               lightning_module := demo_module;
               trainer_optimizers := [];
               trainer_lr_schedulers := [];
               rank_zero_only_rank := None;
               global_seed := None;
               model_device := None |} |}.

(** The message of [_format_batch_size_grad_accum_config]. *)
Definition batch_msg : string :=
  "Within the DeepSpeed config, do not set train_batch_size or train_micro_batch_size_per_gpu as these will be passed from the data-loader.".

End DSReady.


(** * Facts about [callbacks/swa.py] *)
Module SWAFacts.
Import Py SWA Fixtures.

Lemma bind_ok {A B} (m : result A) (k : A → result B) b :
  m ≫= k = Ok b → ∃ a, m = Ok a ∧ k a = Ok b.
Proof. destruct m as [a|e]; simpl; [eauto|done]. Qed.

Ltac bind_inv H :=
  let a := fresh "a" in
  let Ha := fresh "Ha" in
  apply bind_ok in H as (a & Ha & H).

(** Two tensors with the same entries are the same tensor. *)
Lemma tensor_eq_by_values (a b : tensor) : this <$> a = this <$> b → a = b.
Proof.
  revert b. induction a as [|x a IH]; intros [|y b]; simpl; try done.
  intros [= Hxy Hab]. f_equal; [|by apply IH].
  apply Qc_is_canon. by rewrite Hxy.
Qed.

(** ** Traversals *)

Lemma elem_of_dedup_from seen l x :
  x ∈ dedup_from seen l ↔ x ∈ l ∧ x ∉ seen.
Proof.
  revert seen. induction l as [|y r IH]; intros seen; simpl.
  - rewrite !elem_of_nil. tauto.
  - destruct (existsb (Nat.eqb y) seen) eqn:E.
    + apply existsb_exists in E as (z & Hz & Hyz).
      apply Nat.eqb_eq in Hyz. subst z. apply list_elem_of_In in Hz.
      rewrite IH, elem_of_cons. split; [tauto|].
      intros [[->|?] ?]; tauto.
    + assert (y ∉ seen) as Hy.
      { intros Hin. apply list_elem_of_In in Hin.
        assert (existsb (Nat.eqb y) seen = true) as Ht
          by (apply existsb_exists; exists y; split; [done | apply Nat.eqb_refl]).
        congruence. }
      rewrite !elem_of_cons, IH, elem_of_cons.
      destruct (decide (x = y)) as [->|]; tauto.
Qed.

Lemma NoDup_dedup_from seen l : NoDup (dedup_from seen l).
Proof.
  revert seen. induction l as [|y r IH]; intros seen; simpl.
  - constructor.
  - destruct (existsb (Nat.eqb y) seen); [apply IH|].
    constructor; [|apply IH].
    rewrite elem_of_dedup_from, elem_of_cons. tauto.
Qed.

Lemma NoDup_modules m : NoDup (modules m).
Proof. apply NoDup_dedup_from. Qed.

Lemma NoDup_parameters m : NoDup (parameters m).
Proof. apply NoDup_dedup_from. Qed.

(** ** Batch-norm recalibration *)

(** The loop of [reset_batch_norm_and_save_state] over distinct modules. *)
Lemma reset_fold_spec ms : NoDup ms → ∀ mom mo l,
  (foldl reset_step (mom, mo) ms).2 !! l = (if decide (l ∈ ms)
              then match mo !! l with
                   | Some (BatchNorm bn) => Some (BatchNorm (reset_bn bn))
                   | o => o
                   end
              else mo !! l) ∧
  (foldl reset_step (mom, mo) ms).1 !! l = (if decide (l ∈ ms)
              then match mo !! l with
                   | Some (BatchNorm bn) => Some (momentum bn)
                   | _ => mom !! l
                   end
              else mom !! l).
Proof.
  intros Hnd. induction Hnd as [|x ms Hx Hnd' IH].
  all: intros mom mo l.
  all: simpl.
  - split; done.
  - destruct (IH (reset_step (mom, mo) x).1 (reset_step (mom, mo) x).2 l)
      as [IH2 IH1].
    rewrite <- surjective_pairing in IH2, IH1.
    rewrite IH2, IH1. clear IH IH1 IH2.
    unfold reset_step; simpl.
    destruct (mo !! x) as [[|bn]|] eqn:E; simpl; rewrite ?lookup_insert;
      repeat case_decide; subst; rewrite ?E; simpl;
      try done.
    all: try (exfalso;
      repeat match goal with
      | H : _ ∉ _ :: _ |- _ => rewrite not_elem_of_cons in H
      | H : _ ∈ _ :: _ |- _ => rewrite elem_of_cons in H
      end; tauto).
    all: match goal with
         | Hn : ?l ∉ ?ms, Hc : ?l ∈ ?x :: ?ms |- _ =>
             assert (l = x) as -> by (apply elem_of_cons in Hc; tauto)
         end.
    all: rewrite ?E; try done.
Qed.

Lemma restore_fold_lookup (mom : gmap loc (option float)) (mo : gmap loc module) l :
  map_fold (fun bn_module v mo => alter (set_momentum v) bn_module mo) mo mom !! l
  = match mom !! l with
    | Some v => set_momentum v <$> mo !! l
    | None => mo !! l
    end.
Proof.
  revert l.
  apply (map_fold_weak_ind (λ r m, ∀ l, r !! l = match m !! l with
    | Some v => set_momentum v <$> mo !! l | None => mo !! l end)).
  - intros l. by rewrite lookup_empty.
  - intros i x m r Hi IH l. rewrite lookup_alter, lookup_insert.
    case_decide as Hil.
    + subst l. rewrite IH, Hi. done.
    + apply IH.
Qed.

(** C7: [reset_batch_norm_and_save_state] followed by [reset_momenta]
    succeeds and gives every batch-norm module, whether the model has none,
    one or many, the momentum it had before the reset. *)
Theorem C7_reset_then_restore_keeps_momentum
    (model : LightningModule) (self : StochasticWeightAveraging) (w : world) :
  let saved := reset_batch_norm_and_save_state model self w in
  ∃ w', reset_momenta saved.1 saved.2 = Ok w' ∧
    ∀ l bn, module_objs w !! l = Some (BatchNorm bn) →
      ∃ bn', module_objs w' !! l = Some (BatchNorm bn') ∧
             momentum bn' = momentum bn.
Proof.
  simpl. eexists. split; [reflexivity|].
  intros l bn Hl. simpl. rewrite restore_fold_lookup.
  destruct (reset_fold_spec (modules model) (NoDup_modules model)
              ∅ (module_objs w) l) as [Hobj Hmom].
  unfold reset_loop. rewrite Hobj, Hmom, Hl.
  case_decide; simpl.
  - by eexists.
  - rewrite lookup_empty. by eexists.
Qed.

(** Module 11 of [bn_model] has momentum 0.1 before and after. *)
Lemma C7_witness :
  ∃ w' bn',
    reset_momenta
      (reset_batch_norm_and_save_state bn_model demo_callback demo_world).1
      (reset_batch_norm_and_save_state bn_model demo_callback demo_world).2
      = Ok w' ∧
    module_objs w' !! 11%nat = Some (BatchNorm bn') ∧
    momentum bn' = Some (float_lit 1 10).
Proof.
  destruct (C7_reset_then_restore_keeps_momentum bn_model demo_callback
              demo_world) as (w' & Hok & Hall).
  destruct (Hall 11%nat bn_a) as (bn' & Hb & Hm); [reflexivity|].
  exists w', bn'. repeat split; assumption.
Defined.

(** C10: a second [reset_batch_norm_and_save_state] with no [reset_momenta]
    in between starts from an empty snapshot and records, for every
    batch-norm module of the model, the [None] that the first call wrote,
    so that no entry of the new snapshot holds a momentum;
    [reset_momenta] then leaves each of those modules with momentum
    [None]. *)
Theorem C10_second_reset_overwrites_snapshot
    (model : LightningModule) (self : StochasticWeightAveraging) (w : world) :
  let first := reset_batch_norm_and_save_state model self w in
  let second := reset_batch_norm_and_save_state model first.1 first.2 in
  ∃ snapshot w',
    momenta second.1 = Some snapshot ∧
    reset_momenta second.1 second.2 = Ok w' ∧
    (∀ l v, snapshot !! l = Some v → v = None) ∧
    ∀ l bn, l ∈ modules model → module_objs w !! l = Some (BatchNorm bn) →
      snapshot !! l = Some None ∧
      ∃ bn', module_objs w' !! l = Some (BatchNorm bn') ∧
             momentum bn' = None.
Proof.
  pose proof (NoDup_modules model) as Hnd.
  simpl. eexists _, _. split; [reflexivity|]. split; [reflexivity|].
  split.
  { intros l v.
    destruct (reset_fold_spec (modules model) Hnd ∅ (module_objs w) l)
      as [Hobj1 _].
    destruct (reset_fold_spec (modules model) Hnd ∅
                (reset_loop (modules model) (module_objs w)).2 l)
      as [_ Hmom2].
    unfold reset_loop in *. rewrite Hmom2, Hobj1.
    case_decide; [|by rewrite lookup_empty].
    destruct (module_objs w !! l) as [[|bn]|]; simpl; rewrite ?lookup_empty;
      congruence. }
  intros l bn Hin Hl. simpl. rewrite restore_fold_lookup.
  destruct (reset_fold_spec (modules model) Hnd ∅ (module_objs w) l)
    as [Hobj1 _].
  rewrite decide_True, Hl in Hobj1 by done.
  destruct (reset_fold_spec (modules model) Hnd ∅
              (reset_loop (modules model) (module_objs w)).2 l)
    as [Hobj2 Hmom2].
  unfold reset_loop in *.
  rewrite decide_True in Hobj2 by done.
  rewrite decide_True in Hmom2 by done.
  rewrite Hobj1 in Hobj2, Hmom2.
  rewrite Hobj2, Hmom2. simpl. split; [done|]. by eexists.
Qed.

(** Module 11 of [bn_model] starts with momentum 0.1 and ends with
    [None]. *)
Lemma C10_witness :
  ∃ snapshot w' bn',
    momenta (reset_batch_norm_and_save_state bn_model
               (reset_batch_norm_and_save_state bn_model demo_callback
                  demo_world).1
               (reset_batch_norm_and_save_state bn_model demo_callback
                  demo_world).2).1 = Some snapshot ∧
    reset_momenta
      (reset_batch_norm_and_save_state bn_model
         (reset_batch_norm_and_save_state bn_model demo_callback
            demo_world).1
         (reset_batch_norm_and_save_state bn_model demo_callback
            demo_world).2).1
      (reset_batch_norm_and_save_state bn_model
         (reset_batch_norm_and_save_state bn_model demo_callback
            demo_world).1
         (reset_batch_norm_and_save_state bn_model demo_callback
            demo_world).2).2 = Ok w' ∧
    snapshot !! 11%nat = Some None ∧
    module_objs w' !! 11%nat = Some (BatchNorm bn') ∧
    momentum bn' = None ∧
    module_objs demo_world !! 11%nat = Some (BatchNorm bn_a) ∧
    momentum bn_a = Some (float_lit 1 10).
Proof.
  destruct (C10_second_reset_overwrites_snapshot bn_model demo_callback
              demo_world) as (snapshot & w' & Hs & Hr & _ & Hall).
  destruct (Hall 11%nat bn_a) as (Hnone & bn' & Hb & Hm).
  - vm_compute. apply list_elem_of_In. simpl. tauto.
  - reflexivity.
  - exists snapshot, w', bn'. repeat split; assumption.
Defined.

(** ** The running average *)





Lemma tensor_div_one (x : tensor) : tensor_div_int x 1 = x.
Proof.
  unfold tensor_div_int. induction x as [|a x IH]; csimpl; [done|].
  rewrite IH. f_equal. change (qz 1) with 1%Qc. field.
  discriminate.
Qed.

(** The loop of [update_parameters]: each averaged parameter is written
    once, from the values the store held on entry. *)
Lemma update_fold_lookup n f pa : NoDup pa → ∀ ps (ts : gmap loc tensor),
  (∀ p, p ∈ pa → p ∉ ps) →
  (∀ i a s, pa !! i = Some a → ps !! i = Some s →
     foldl (update_step n f) ts (zip pa ps) !!! a
     = if n =? 0 then ts !!! s else f (ts !!! a) (ts !!! s) n) ∧
  (∀ l, l ∉ pa → foldl (update_step n f) ts (zip pa ps) !! l = ts !! l).
Proof.
  intros Hnd. induction Hnd as [|a0 pa Ha0 Hnd IH]; intros ps ts Hsep.
  - split; [intros i a s Hi; by rewrite lookup_nil in Hi | done].
  - destruct ps as [|s0 ps]; [split; [intros i a s _ Hi; by rewrite lookup_nil in Hi | done]|].
    simpl.
    assert (∀ p, p ∈ pa → p ∉ ps) as Hsep'.
    { intros p Hp Hq. apply (Hsep p); [by apply elem_of_cons; right|by apply elem_of_cons; right]. }
    destruct (IH ps (update_step n f ts (a0, s0)) Hsep') as [IHv IHf].
    split.
    + intros [|i] a s Ha Hs; simpl in Ha, Hs.
      * injection Ha as <-. injection Hs as <-.
        rewrite lookup_total_alt, IHf by done.
        unfold update_step; simpl. by rewrite lookup_insert_eq.
      * rewrite (IHv i a s Ha Hs).
        assert (a ≠ a0) as Hne.
        { intros ->. apply Ha0. by eapply list_elem_of_lookup_2. }
        assert (s ≠ a0) as Hne'.
        { intros ->. apply (Hsep a0); [by apply elem_of_cons; left|].
          apply elem_of_cons; right. by eapply list_elem_of_lookup_2. }
        unfold update_step; simpl.
        rewrite !(lookup_total_alt (<[a0:=_]> ts)).
        rewrite !lookup_insert_ne by done.
        by rewrite <- !lookup_total_alt.
    + intros l Hl. rewrite IHf by (intros ?; apply Hl; by apply elem_of_cons; right).
      unfold update_step; simpl. rewrite lookup_insert_ne; [done|].
      intros ->. apply Hl. by apply elem_of_cons; left.
Qed.

Lemma write_fold_lookup ps : NoDup ps → ∀ (vs : list tensor) (ts : gmap loc tensor),
  (∀ i s x, ps !! i = Some s → vs !! i = Some x →
     foldl (fun ts pv => <[pv.1 := pv.2]> ts) ts (zip ps vs) !!! s = x) ∧
  (∀ l, l ∉ ps →
     foldl (fun ts pv => <[pv.1 := pv.2]> ts) ts (zip ps vs) !! l = ts !! l).
Proof.
  intros Hnd. induction Hnd as [|s0 ps Hs0 Hnd IH]; intros vs ts.
  - split; [intros i s x Hi; by rewrite lookup_nil in Hi | done].
  - destruct vs as [|v0 vs]; [split; [intros i s x _ Hi; by rewrite lookup_nil in Hi | done]|].
    simpl. destruct (IH vs (<[s0:=v0]> ts)) as [IHv IHf].
    split.
    + intros [|i] s x Hs Hx; simpl in Hs, Hx.
      * injection Hs as <-. injection Hx as <-.
        rewrite lookup_total_alt, IHf by done. by rewrite lookup_insert_eq.
      * by apply IHv with i.
    + intros l Hl. rewrite IHf by (intros ?; apply Hl; by apply elem_of_cons; right).
      rewrite lookup_insert_ne; [done|].
      intros ->. apply Hl. by apply elem_of_cons; left.
Qed.

Section RunningMean.
Variables average_model model : LightningModule.
Hypothesis Hsep : separate average_model model.
Variables (i : nat) (a s : loc).
Hypothesis Ha : parameters average_model !! i = Some a.
Hypothesis Hs : parameters model !! i = Some s.



Lemma feed_counter values n w :
  (feed average_model model values n w).2 = n + Z.of_nat (length values).
Proof.
  revert n w. induction values as [|v values IH]; intros n w; simpl.
  - lia.
  - rewrite IH. simpl. lia.
Qed.



End RunningMean.




(** [on_train_epoch_start] never reads [self._avg_fn]. *)
Lemma epoch_start_ignores_avg_fn torch pl f s :
  on_train_epoch_start torch pl (with_avg_fn f s)
  = with_avg_fn f <$> on_train_epoch_start torch pl s.
Proof.
  destruct s as [[] [] h]. unfold with_avg_fn. simpl.
  unfold on_train_epoch_start, start_swa, average_epoch,
    start_batch_norm_epoch, swa_start, swa_end. simpl.
  unfold getattr, item0, mbind, result_bind, fmap, result_fmap, mret,
    result_ret.
  repeat (simpl; case_match; simplify_eq; try done; try congruence).
Qed.

(** C2, as the code has it: the hook hands the built-in [avg_fn] to
    [update_parameters] whatever was configured, so that its outcome is the
    same for every configured function. With "keep the latest value"
    configured and an averaging window of two epochs, the second epoch
    leaves the mean of the two values in the averaged parameter, not the
    latest. *)
Theorem C2_configured_avg_fn_is_not_used :
  (∀ torch pl f s,
     on_train_epoch_start torch pl (with_avg_fn f s)
     = with_avg_fn f <$> on_train_epoch_start torch pl s) ∧
  ∃ cb history s,
    __init__ (PInt 1) (PyFloat (float_lit 5 100)) 10 "cos"
      (AvgCallable latest_only) (TorchDevice "cpu") = Ok cb ∧
    _avg_fn cb = latest_only ∧
    callback latest_only_state = cb ∧
    fit true plain_model constant_training latest_only_state = Ok history ∧
    history !! 3%nat = Some s ∧
    current_epoch (trainer s) = 1 ∧
    chronicle (heap s)
    = [EvHookEpochStart 0; EvSwapScheduler;
       EvUpdateParameters (set_device "cpu" copy_model) plain_model 0;
       EvHookEpochEnd 0; EvHookEpochStart 1;
       EvUpdateParameters (set_device "cpu" copy_model) plain_model 1] ∧
    _average_model (callback s) = Some (set_device "cpu" copy_model) ∧
    tensors (heap s) !!! 13%nat = ints [2; 4] ∧
    avg_fn (ints [1; 2]) (ints [3; 6]) 1 = ints [2; 4] ∧
    latest_only (ints [1; 2]) (ints [3; 6]) 1 = ints [3; 6] ∧
    ints [2; 4] ≠ ints [3; 6].
Proof.
  split; [exact epoch_start_ignores_avg_fn|].
  eexists _, _, _.
  split; [vm_compute; reflexivity|]. split; [reflexivity|].
  split; [reflexivity|]. split; [vm_compute; reflexivity|].
  split; [reflexivity|]. split; [reflexivity|].
  split; [vm_compute; reflexivity|]. split; [vm_compute; reflexivity|].
  split; [apply tensor_eq_by_values; vm_compute; reflexivity|].
  split; [apply tensor_eq_by_values; vm_compute; reflexivity|].
  split; [reflexivity|]. vm_compute. discriminate.
Qed.


(** ** The averaging window *)

Lemma swa_start_int self z :
  _swa_epoch_start self = PInt z → swa_start self = PInt (Z.max (z - 1) 0).
Proof.
  unfold swa_start, py_max, py_gt, py_lt. intros ->. simpl.
  destruct (Z.compare_spec (z - 1) 0) as [H|H|H]; f_equal; lia.
Qed.

Lemma setup_keeps_int_start pl s s' z :
  _swa_epoch_start (callback s) = PInt z →
  on_before_accelerator_backend_setup pl s = Ok s' →
  _swa_epoch_start (callback s') = PInt z.
Proof.
  unfold on_before_accelerator_backend_setup. intros Hz H.
  destruct (1 <? length (optimizers (trainer s)))%nat; [done|].
  destruct (1 <? length (lr_schedulers (trainer s)))%nat; [done|].
  simpl in H. rewrite Hz in H. simpl in H. by injection H as <-.
Qed.

Lemma start_swa_keeps torch pl s s' :
  start_swa torch pl s = Ok s' →
  _swa_epoch_start (callback s') = _swa_epoch_start (callback s).
Proof.
  unfold start_swa. intros H. bind_inv H. bind_inv H.
  destruct (negb torch); [done|]. bind_inv H. by injection H as <-.
Qed.

Lemma average_epoch_keeps pl s s' :
  average_epoch pl s = Ok s' →
  _swa_epoch_start (callback s') = _swa_epoch_start (callback s).
Proof.
  unfold average_epoch. intros H. bind_inv H. bind_inv H.
  by injection H as <-.
Qed.

Lemma start_batch_norm_epoch_keeps pl s s' :
  start_batch_norm_epoch pl s = Ok s' →
  _swa_epoch_start (callback s') = _swa_epoch_start (callback s).
Proof.
  unfold start_batch_norm_epoch. intros H. bind_inv H. simpl in H.
  bind_inv H. by injection H as <-.
Qed.

Lemma epoch_start_keeps torch pl s s' :
  on_train_epoch_start torch pl s = Ok s' →
  _swa_epoch_start (callback s') = _swa_epoch_start (callback s).
Proof.
  unfold on_train_epoch_start. intros H.
  bind_inv H. bind_inv H. bind_inv H. bind_inv H.
  assert (_swa_epoch_start (callback a) = _swa_epoch_start (callback s)) as E1.
  { destruct (py_eq _ _); [by eapply start_swa_keeps|by injection Ha as <-]. }
  assert (_swa_epoch_start (callback a1) = _swa_epoch_start (callback a)) as E2.
  { destruct a0; [by eapply average_epoch_keeps|by injection Ha1 as <-]. }
  destruct (a2 <? _);
    [apply start_batch_norm_epoch_keeps in H|injection H as <-]; congruence.
Qed.

Lemma epoch_end_keeps pl s s' :
  on_train_epoch_end pl s = Ok s' →
  _swa_epoch_start (callback s') = _swa_epoch_start (callback s).
Proof.
  unfold on_train_epoch_end. intros H. bind_inv H.
  destruct (_ && _).
  - bind_inv H. by injection H as <-.
  - destruct (a <? _).
    + bind_inv H. bind_inv H. by injection H as <-.
    + by injection H as <-.
Qed.

Lemma afterward_keeps_int_start torch s0 s' z :
  afterward torch s0 s' →
  _swa_epoch_start (callback s0) = PInt z →
  _swa_epoch_start (callback s') = PInt z.
Proof.
  induction 1 as [|h pl s1 s2 _ IH Hrun|s1 s2 _ IH Hcb]; intros Hz.
  - done.
  - specialize (IH Hz). destruct h; simpl in Hrun.
    + exact (setup_keeps_int_start pl s1 s2 z IH Hrun).
    + apply epoch_start_keeps in Hrun. congruence.
    + apply epoch_end_keeps in Hrun. congruence.
  - rewrite Hcb. by apply IH.
Qed.

(** C4, as the code has it: a float [swa_epoch_start] is resolved by the
    setup hook to [int(max_epochs * swa_epoch_start)], the 0-based start is
    that number less one but never below 0, and no later hook, nor the
    host loop, changes it. *)
Theorem C4_float_start_resolved_once
    (torch : bool) (pl : LightningModule) (s : state) (f : float) (k : Z) :
  _swa_epoch_start (callback s) = PFloat f →
  swa_epoch_start_rejected (PFloat f) = false →
  (length (optimizers (trainer s)) ≤ 1)%nat →
  (length (lr_schedulers (trainer s)) ≤ 1)%nat →
  py_mul_int_float (max_epochs (trainer s)) f ≫= int_of_float = Ok k →
  ∃ s0, on_before_accelerator_backend_setup pl s = Ok s0 ∧
        swa_start (callback s0) = PInt (Z.max (k - 1) 0) ∧
        ∀ s', afterward torch s0 s' →
              swa_start (callback s') = PInt (Z.max (k - 1) 0).
Proof.
  intros Hf _ Hopt Hsch Hk.
  unfold on_before_accelerator_backend_setup.
  rewrite (proj2 (Nat.ltb_ge _ _) Hopt), (proj2 (Nat.ltb_ge _ _) Hsch).
  simpl. rewrite Hf. bind_inv Hk. rewrite Ha. simpl. rewrite Hk. simpl.
  eexists. split; [reflexivity|].
  split; [by apply swa_start_int|].
  intros s' Hs'. apply swa_start_int.
  by eapply afterward_keeps_int_start.
Qed.

(** [swa_epoch_start=0.8] and 10 epochs: [int(10 * 0.8) = 8], start 7. *)
Lemma C4_witness :
  ∃ s0, on_before_accelerator_backend_setup plain_model fraction_state
        = Ok s0 ∧
        swa_start (callback s0) = PInt 7.
Proof.
  destruct (C4_float_start_resolved_once true plain_model fraction_state
              (float_lit 8 10) 8) as (s0 & Hsetup & Hstart & _).
  - reflexivity.
  - vm_compute. reflexivity.
  - simpl. lia.
  - simpl. lia.
  - vm_compute. reflexivity.
  - exists s0. split; assumption.
Defined.

(** [swa_epoch_start=0.0], which [__init__] accepts, and 10 epochs:
    [int(10 * 0.0) = 0], and the start is 0, not [0 - 1]. *)
Lemma C4_counterexample :
  ∃ cb s0,
    __init__ (PFloat (S754_zero false)) (PyFloat (float_lit 5 100)) 10 "cos"
      AvgNone (TorchDevice "cpu") = Ok cb ∧
    callback zero_start_state = cb ∧
    on_before_accelerator_backend_setup plain_model zero_start_state
    = Ok s0 ∧
    py_mul_int_float 10 (S754_zero false) ≫= int_of_float = Ok 0 ∧
    swa_start (callback s0) = PInt 0 ∧
    swa_start (callback s0) ≠ PInt (0 - 1).
Proof.
  eexists _, _. split; [vm_compute; reflexivity|].
  split; [reflexivity|]. split; [vm_compute; reflexivity|].
  split; [vm_compute; reflexivity|]. split; [vm_compute; reflexivity|].
  vm_compute. discriminate.
Qed.

(** ** Validation of [swa_lrs] *)

Lemma all_positive_floats_true l :
  all_positive_floats l = Ok true ↔ Forall positive_float l.
Proof.
  induction l as [|lr l IH]; simpl.
  - split; [constructor|done].
  - rewrite Forall_cons, <- IH. unfold positive_float.
    destruct lr; simpl; try (split; [done|by intros [(f & ? & _) _]]).
    + destruct b; simpl; (split; [done|by intros [(f & ? & _) _]]).
    + destruct (0 <? z); simpl; (split; [done|by intros [(f & ? & _) _]]).
    + destruct (py_gt (PFloat f) (PInt 0)) eqn:E; simpl.
      * split; [intros H; split; [by exists f|done]|by intros [_ H]].
      * split; [done|]. intros [(g & [= <-] & Hg) _]. congruence.
Qed.

Lemma all_positive_floats_numbers l :
  forallb is_number l = true → ∃ b, all_positive_floats l = Ok b.
Proof.
  induction l as [|lr l IH]; simpl; [by eexists|].
  intros [Hlr Hl]%andb_prop. destruct (IH Hl) as [b Hb].
  destruct lr; simpl in *; try done.
  - destruct b0; simpl; eauto.
  - destruct (0 <? z); simpl; eauto.
  - destruct (py_gt _ _); simpl; eauto.
Qed.

Lemma float_sign_split f :
  f ≠ S754_nan →
  py_le (PFloat f) (PInt 0) = negb (py_gt (PFloat f) (PInt 0)).
Proof.
  intros Hf. unfold py_le, py_gt, py_lt. simpl.
  destruct f as [s|s| |s m e]; simpl; try done.
  - by destruct s.
  - destruct e; simpl; by destruct (_ ?= _).
Qed.

Lemma swa_lrs_accepted_iff lrs :
  lrs ≠ PyFloat S754_nan →
  swa_lrs_rejected lrs = Ok false
  ↔ positive_float lrs ∨ list_of_positive_floats lrs.
Proof.
  intros Hnan. unfold positive_float, list_of_positive_floats.
  destruct lrs; simpl;
    try (split; [done|by intros [(? & ? & _)|(? & ? & _)]]).
  - rewrite float_sign_split by congruence.
    destruct (py_gt (PFloat f) (PInt 0)) eqn:E; simpl.
    + split; [intros _; left; by exists f|done].
    + split; [done|].
      intros [(g & [= <-] & Hg)|(? & ? & _)]; [congruence|done].
  - pose proof (all_positive_floats_true l) as Hl.
    destruct (all_positive_floats l) as [[|]|]; simpl.
    + split; [intros _; right; exists l; split; [done|by apply Hl]|done].
    + split; [done|]. intros [(? & ? & _)|(l' & [= <-] & Hf)]; [done|].
      by apply Hl in Hf.
    + split; [done|]. intros [(? & ? & _)|(l' & [= <-] & Hf)]; [done|].
      by apply Hl in Hf.
Qed.

Lemma init_ok_iff start lrs ae strat avg dev :
  swa_epoch_start_rejected start = false →
  avg_fn_accepted avg = true → device_accepted dev = true →
  (∃ cb, __init__ start lrs ae strat avg dev = Ok cb)
  ↔ swa_lrs_rejected lrs = Ok false.
Proof.
  intros Hs Ha Hd. unfold __init__. rewrite Hs.
  destruct (swa_lrs_rejected lrs) as [[|]|]; simpl.
  - split; [by intros [? ?]|done].
  - split; [done|]. intros _. destruct avg, dev; try done; by eexists.
  - split; [by intros [? ?]|done].
Qed.

(** C5, as the code has it. When the other arguments pass their checks
    and [swa_lrs] is not a NaN float, [__init__] returns exactly when
    [swa_lrs] is a positive float or a list of positive floats, the empty
    list included; every other value that is not a list, and every other
    list of numbers, raises [MisconfigurationException] with the message
    about [swa_lrs]. So do [-0.1], [[0.1, -0.2]] and [None]; [[]] is
    accepted. *)
Theorem C5_swa_lrs_validation
    (start : pynum) (ae : Z) (strat : string) (avg : avg_fn_arg)
    (dev : device_arg) :
  swa_epoch_start_rejected start = false →
  avg_fn_accepted avg = true → device_accepted dev = true →
  (∀ lrs, lrs ≠ PyFloat S754_nan →
     ((∃ cb, __init__ start lrs ae strat avg dev = Ok cb)
      ↔ positive_float lrs ∨ list_of_positive_floats lrs) ∧
     (numbers_only lrs →
      ¬ (positive_float lrs ∨ list_of_positive_floats lrs) →
      __init__ start lrs ae strat avg dev
      = Raise (MisconfigurationException swa_lrs_msg))) ∧
  __init__ start (PyFloat (SFopp (float_lit 1 10))) ae strat avg dev
  = Raise (MisconfigurationException swa_lrs_msg) ∧
  __init__ start
    (PyList [PyFloat (float_lit 1 10); PyFloat (SFopp (float_lit 2 10))])
    ae strat avg dev
  = Raise (MisconfigurationException swa_lrs_msg) ∧
  __init__ start PyNone ae strat avg dev
  = Raise (MisconfigurationException swa_lrs_msg) ∧
  (∃ cb, __init__ start (PyList []) ae strat avg dev = Ok cb).
Proof.
  intros Hs Ha Hd.
  assert (∀ lrs, swa_lrs_rejected lrs = Ok true →
            __init__ start lrs ae strat avg dev
            = Raise (MisconfigurationException swa_lrs_msg)) as Hrej.
  { intros lrs H. unfold __init__. by rewrite Hs, H. }
  split; [|repeat split].
  - intros lrs Hnan. split.
    + rewrite init_ok_iff by done. by apply swa_lrs_accepted_iff.
    + intros Hnum Hno. apply Hrej.
      rewrite <- (swa_lrs_accepted_iff lrs Hnan) in Hno.
      destruct lrs; simpl in *; try done.
      * by destruct (py_le _ _).
      * destruct (all_positive_floats_numbers l Hnum) as [b Hb].
        rewrite Hb in *. by destruct b.
  - apply Hrej. vm_compute. reflexivity.
  - apply Hrej. vm_compute. reflexivity.
  - by apply Hrej.
  - apply init_ok_iff; done.
Qed.

(** [swa_lrs=0.05] is accepted and [swa_lrs=1], an [int], is refused. *)
Lemma C5_witness :
  (∃ cb, __init__ (PFloat (float_lit 8 10)) (PyFloat (float_lit 5 100)) 10
           "cos" AvgNone (TorchDevice "cpu") = Ok cb) ∧
  __init__ (PFloat (float_lit 8 10)) (PyInt 1) 10 "cos" AvgNone
    (TorchDevice "cpu")
  = Raise (MisconfigurationException swa_lrs_msg).
Proof.
  destruct (C5_swa_lrs_validation (PFloat (float_lit 8 10)) 10 "cos" AvgNone
              (TorchDevice "cpu")) as (Hall & _).
  - vm_compute. reflexivity.
  - reflexivity.
  - reflexivity.
  - split.
    + apply (Hall (PyFloat (float_lit 5 100))); [vm_compute; discriminate|].
      left. eexists. split; [reflexivity|]. vm_compute. reflexivity.
    + apply (Hall (PyInt 1)); [discriminate|exact I|].
      intros [(f & Hf & _)|(l & Hl & _)]; discriminate.
Defined.

(** [swa_lrs=[]] does not raise. *)
Lemma C5_counterexample :
  raises (__init__ (PFloat (float_lit 8 10)) (PyList []) 10 "cos" AvgNone
            (TorchDevice "cpu")) = false.
Proof. vm_compute. reflexivity. Qed.

(** ** The recalibration epoch *)

Lemma same_bookkeeping_refl s : same_bookkeeping s s.
Proof. by repeat split. Qed.

Lemma start_swa_bookkeeping torch pl s s' :
  start_swa torch pl s = Ok s' → same_bookkeeping s s'.
Proof.
  unfold start_swa. intros H.
  bind_inv H. bind_inv H.
  destruct (negb torch); [done|].
  bind_inv H. injection H as <-. by repeat split.
Qed.

Lemma average_epoch_bookkeeping pl s s' :
  average_epoch pl s = Ok s' → same_bookkeeping s s'.
Proof.
  unfold average_epoch. intros H.
  bind_inv H. bind_inv H. injection H as <-. by repeat split.
Qed.

Lemma swa_end_same s s' :
  _max_epochs (callback s') = _max_epochs (callback s) →
  swa_end (callback s') = swa_end (callback s).
Proof. unfold swa_end. by intros ->. Qed.

(** C6: in an epoch after [swa_end] the two hooks are a matched pair.
    When [on_train_epoch_start] returns, it has set the skip-backward flag,
    added one to the batch count and put [len(trainer.train_dataloader)] in
    the place of the accumulation factor; [on_train_epoch_end], run on the
    callback and the trainer it left, whatever became of the store, then
    returns with the batch count and the accumulation factor that the
    trainer had before the start hook, and with the flag cleared. *)
Theorem C6_recalibration_epoch_restores_bookkeeping
    (torch : bool) (pl : LightningModule) (s s1 : state) (e : Z) :
  swa_end (callback s) = Ok e →
  e < current_epoch (trainer s) →
  on_train_epoch_start torch pl s = Ok s1 →
  (_skip_backward (trainer s1) = true ∧
   num_training_batches (trainer s1) = num_training_batches (trainer s) + 1 ∧
   Some (accumulate_grad_batches (trainer s1))
   = train_dataloader_len (trainer s)) ∧
  ∀ pl' s1',
    callback s1' = callback s1 → trainer s1' = trainer s1 →
    ∃ s2, on_train_epoch_end pl' s1' = Ok s2 ∧
      num_training_batches (trainer s2) = num_training_batches (trainer s) ∧
      accumulate_grad_batches (trainer s2)
      = accumulate_grad_batches (trainer s) ∧
      _skip_backward (trainer s2) = false.
Proof.
  intros Hend Hlt Hstart. unfold on_train_epoch_start in Hstart.
  bind_inv Hstart. rename a into sa.
  assert (same_bookkeeping s sa) as Hsa.
  { destruct (py_eq _ _); [by eapply start_swa_bookkeeping|].
    injection Ha as <-. apply same_bookkeeping_refl. }
  clear Ha. destruct Hsa as (Hn & Hacc & Hlen & Hcur & _ & Hmax & _ & _).
  pose proof (swa_end_same s sa Hmax) as Hend'. rewrite Hend in Hend'.
  rewrite Hend' in Hstart. simpl in Hstart.
  rewrite (proj2 (Z.leb_gt _ _) Hlt) in Hstart.
  assert (∀ b : bool, (if b then mret false else mret false) = Ok false)
    as Hboth by (by intros []).
  rewrite Hboth in Hstart. simpl in Hstart.
  rewrite Hend' in Hstart. simpl in Hstart.
  rewrite (proj2 (Z.ltb_lt _ _) Hlt) in Hstart.
  unfold start_batch_norm_epoch in Hstart.
  bind_inv Hstart. simpl in Hstart. bind_inv Hstart. rename a0 into n.
  injection Hstart as <-. simpl.
  destruct (train_dataloader_len (trainer sa)) as [n'|] eqn:En; [|done].
  injection Ha0 as ->.
  split; [repeat split; congruence|].
  intros pl' s1' Hcb Htr. unfold on_train_epoch_end.
  rewrite Hcb, Htr. simpl.
  unfold swa_end at 1. simpl. unfold swa_end in Hend'.
  destruct (_max_epochs (callback sa)) as [m|]; [|done].
  simpl in *. injection Hend' as Hm. rewrite Hm, Hcur.
  rewrite (proj2 (Z.eqb_neq _ _)) by lia. simpl.
  rewrite (proj2 (Z.ltb_lt _ _) Hlt). simpl.
  eexists. split; [reflexivity|]. simpl. repeat split; lia.
Qed.

(** Epoch 10 of a run whose window ends at epoch 9: five batches and an
    accumulation factor of 1 before and after, six batches in between. *)
Lemma C6_witness :
  ∃ s1 s2,
    on_train_epoch_start true bn_model recalibration_state = Ok s1 ∧
    on_train_epoch_end bn_model s1 = Ok s2 ∧
    num_training_batches (trainer s1) = 6 ∧
    num_training_batches (trainer s2) = 5 ∧
    accumulate_grad_batches (trainer s2) = 1 ∧
    _skip_backward (trainer s2) = false.
Proof.
  destruct (on_train_epoch_start true bn_model recalibration_state)
    as [s1|x] eqn:Hstart; [|vm_compute in Hstart; discriminate].
  destruct (C6_recalibration_epoch_restores_bookkeeping true bn_model
              recalibration_state s1 9) as ((_ & Hn1 & _) & Hend).
  - reflexivity.
  - simpl. lia.
  - exact Hstart.
  - destruct (Hend bn_model s1 eq_refl eq_refl) as (s2 & H2 & Hn & Ha & Hs).
    exists s1, s2. repeat split; assumption.
Defined.

(** ** The end-to-end run *)

Lemma py_eq_int a b : py_eq (PInt a) (PInt b) = (a =? b).
Proof.
  unfold py_eq. simpl. rewrite Z.eqb_compare. by destruct (a ?= b).
Qed.

Lemma py_le_int a b : py_le (PInt a) (PInt b) = (a <=? b).
Proof.
  unfold py_le, Z.leb. simpl. by destruct (a ?= b).
Qed.

Section EndToEnd.
Variables (pl : LightningModule) (training : Z → list tensor).
Variables (o : nat) (entry : lr_scheduler_config).
Variables (swa_lrs : pyval) (ae : Z) (strat : string) (dev : device_arg).

Let run := averaging_run o swa_lrs ae strat dev.

(** The averaged model once [start_swa] has moved it. *)
Let moved (am : LightningModule) : LightningModule :=
  set_device (device_or dev (device pl)) am.













Lemma run_epochs_cons e rest s sa sb more :
  run_epoch true pl training e s = Ok (sa, sb) →
  run_epochs true pl training rest sb = Ok more →
  run_epochs true pl training (e :: rest) s = Ok (sa :: sb :: more).
Proof. intros H1 H2. simpl. rewrite H1. simpl. by rewrite H2. Qed.


End EndToEnd.




Lemma deepcopy_trace pl w : trace (deepcopy pl w).2 = trace w.
Proof.
  unfold deepcopy.
  destruct (copy_cells (parameters pl) _ _), (copy_cells (modules pl) _ _).
  done.
Qed.





End SWAFacts.

(** * Facts about [plugins/training_type/deepspeed.py] *)
Module DeepSpeedFacts.
Import Py DeepSpeed DSFixtures.

Example parse_int_examples :
  parse_int "12" = Some 12 ∧ parse_int " -7 " = Some (-7) ∧
  parse_int "+1_000" = Some 1000 ∧ parse_int "" = None ∧
  parse_int "1__0" = None ∧ parse_int "0x10" = None ∧
  parse_int "3.0" = None ∧ parse_int "_1" = None ∧ parse_int "1_" = None.
Proof. vm_compute. repeat split. Qed.

(** On the path taken without an ["optimizer"] entry nothing ever comes
    back: the subscript of [items()] raises whenever the length test lets
    the call through. *)
Lemma format_optimizer_config_never_returns m self r :
  config self !! "optimizer" = None →
  _format_optimizer_config m self ≠ Ok r.
Proof.
  intros Hno. unfold _format_optimizer_config. rewrite Hno.
  rewrite bool_decide_eq_false_2 by (by intros [? ?]). simpl.
  destruct (unpack2 (configure_optimizers m)) as [[o s]|]; simpl; [|done].
  destruct (negb _); [done|].
  destruct (py_len o) as [n|]; simpl; [|done].
  destruct (negb (n =? 1)); simpl; [done|].
  destruct (py_len s) as [n'|]; simpl; [|done].
  destruct (n' =? 1); [done|].
  destruct o; simpl; done.
Qed.

(** C8, as the code has it: when the config has no ["optimizer"] entry
    and [configure_optimizers] returns one optimizer definition and one
    scheduler definition, each a [dict] with a single entry,
    [_format_optimizer_config] raises [MisconfigurationException] with the
    "single optimizer, single scheduler" message: in line 201 the [not]
    covers the first comparison only, so a scheduler [dict] of length 1
    is what triggers the error. *)
Theorem C8_single_optimizer_single_scheduler_is_rejected
    (m : LightningModule) (self : DeepSpeedPlugin)
    (opt sched : gmap string pyval) :
  config self !! "optimizer" = None →
  configure_optimizers m = PyTuple [PyDict opt; PyDict sched] →
  size opt = 1%nat → size sched = 1%nat →
  _format_optimizer_config m self
  = Raise (MisconfigurationException single_msg).
Proof.
  intros Hno Hret Hopt Hsched. unfold _format_optimizer_config.
  rewrite Hno, Hret. rewrite bool_decide_eq_false_2 by (by intros [? ?]).
  simpl. by rewrite Hopt, Hsched.
Qed.

(** One optimizer ([Adam]) and one scheduler ([WarmupLR]) returned by
    [configure_optimizers], no ["optimizer"] key in the config. *)
Lemma C8_witness :
  _format_optimizer_config demo_module demo_plugin
  = Raise (MisconfigurationException single_msg).
Proof.
  apply (C8_single_optimizer_single_scheduler_is_rejected demo_module
           demo_plugin adam warmup); reflexivity.
Defined.








End DeepSpeedFacts.

(** * More about [callbacks/swa.py]: the static methods *)
Module SWAProperties.
Import Py SWA Fixtures SWAFacts.

(** ** Copying weights *)

(** The loop of [transfer_weights] is the loop of [update_parameters] at
    counter 0, with the two models in each other's place. *)
Lemma transfer_as_update f ps : ∀ pd (ts : gmap loc tensor),
  foldl transfer_step ts (zip ps pd)
  = foldl (update_step 0 f) ts (zip pd ps).
Proof.
  induction ps as [|a ps IH]; intros [|d pd] ts; simpl; try done.
Qed.





(** ** The default averaging function *)



(** ** Recalibration of the batch-norm statistics *)

Lemma elem_of_modules model l : l ∈ modules model ↔ l ∈ module_slots model.
Proof.
  unfold modules. rewrite elem_of_dedup_from, elem_of_nil. tauto.
Qed.

(** [reset_batch_norm_and_save_state] leaves every batch-norm module of the
    model with a zero mean and a unit variance of the shapes they had, no
    momentum and no batches counted; the snapshot holds the momentum of
    exactly these modules; every other module, every tensor and every other
    attribute of the callback is as before. *)
Theorem reset_batch_norm_effect
    (average_model : LightningModule) (self : StochasticWeightAveraging)
    (w : world) :
  let r := reset_batch_norm_and_save_state average_model self w in
  tensors r.2 = tensors w ∧
  (∀ l, module_objs r.2 !! l
        = match module_objs w !! l with
          | Some (BatchNorm bn) =>
              if decide (l ∈ module_slots average_model)
              then Some (BatchNorm
                           {| running_mean := zeros_like (running_mean bn);
                              running_var := ones_like (running_var bn);
                              momentum := None;
                              num_batches_tracked := 0 |})
              else Some (BatchNorm bn)
          | o => o
          end) ∧
  ∃ snapshot,
    r.1 = set_momenta (Some snapshot) self ∧
    ∀ l, snapshot !! l
         = match module_objs w !! l with
           | Some (BatchNorm bn) =>
               if decide (l ∈ module_slots average_model)
               then Some (momentum bn) else None
           | _ => None
           end.
Proof.
  simpl. split; [done|]. split.
  - intros l.
    destruct (reset_fold_spec (modules average_model)
                (NoDup_modules average_model) ∅ (module_objs w) l)
      as [Hobj _].
    unfold reset_loop. rewrite Hobj.
    destruct (module_objs w !! l) as [[|bn]|]; repeat case_decide;
      try done; try (by rewrite elem_of_modules in *).
    unfold reset_bn. by rewrite Z.mul_0_r.
  - eexists. split; [reflexivity|]. intros l.
    destruct (reset_fold_spec (modules average_model)
                (NoDup_modules average_model) ∅ (module_objs w) l)
      as [_ Hmom].
    unfold reset_loop. rewrite Hmom.
    destruct (module_objs w !! l) as [[|bn]|]; repeat case_decide;
      rewrite ?lookup_empty; try done; by rewrite elem_of_modules in *.
Qed.

(** [reset_momenta] needs the snapshot: without one it raises
    [AttributeError]. With one, each module named in it gets the momentum
    recorded for it and keeps its statistics; no other module and no tensor
    changes. *)
Theorem reset_momenta_effect (self : StochasticWeightAveraging) (w : world) :
  match momenta self with
  | None => reset_momenta self w = Raise (AttributeError "momenta")
  | Some snapshot =>
      ∃ w', reset_momenta self w = Ok w' ∧ tensors w' = tensors w ∧
        ∀ l, module_objs w' !! l
             = match module_objs w !! l, snapshot !! l with
               | Some (BatchNorm bn), Some v =>
                   Some (BatchNorm
                           {| running_mean := running_mean bn;
                              running_var := running_var bn;
                              momentum := v;
                              num_batches_tracked := num_batches_tracked bn |})
               | o, _ => o
               end
  end.
Proof.
  unfold reset_momenta. destruct (momenta self) as [snapshot|]; [|done].
  simpl. eexists. split; [reflexivity|]. split; [done|].
  intros l. simpl. rewrite restore_fold_lookup.
  destruct (snapshot !! l), (module_objs w !! l) as [[|bn]|]; done.
Qed.

End SWAProperties.

(** * The hooks, epoch by epoch *)
Module SWARuns.
Import Py SWA SWASchedule Fixtures SWAFacts.

Section Epochs.
Variables (pl : LightningModule) (training : Z → list tensor).
Variables (k E : Z) (bn : bool) (o : nat).
Variables (cb : StochasticWeightAveraging) (tr : Trainer).

Let a := first_epoch k.
Let z := last_epoch E.
Let run := running k E bn o cb tr.

Lemma running_window am n scheds s t w :
  run am n scheds s t w →
  swa_start (callback s) = PInt a ∧ swa_end (callback s) = Ok z.
Proof.
  intros H. split.
  - by rewrite (swa_start_int _ k) by apply H.
  - unfold swa_end. by rewrite (at_max _ _ _ _ _ _ _ _ _ _ _ _ H).
Qed.

Lemma running_enter e am n scheds s t w :
  run am n scheds s t w →
  run am n scheds (enter_epoch e s) (EvHookEpochStart e :: t) w ∧
  current_epoch (trainer (enter_epoch e s)) = e.
Proof.
  intros []. split; [|done]. constructor; simpl; try done. by f_equal.
Qed.

Lemma running_leave e am n scheds s t w :
  run am n scheds s t w →
  run am n scheds (leave_epoch e (host_training pl (training e) s))
    (EvHookEpochEnd e :: t) (write_parameters pl (training e) w) ∧
  current_epoch (trainer (leave_epoch e (host_training pl (training e) s)))
  = current_epoch (trainer s).
Proof.
  intros []. split; [|done]. constructor; simpl; try done; by f_equal.
Qed.


Ltac window := unfold a, z, first_epoch, last_epoch, epochs_run in *; lia.

Lemma start_quiet am n scheds s t w :
  run am n scheds s t w →
  current_epoch (trainer s) < a → current_epoch (trainer s) ≤ z →
  on_train_epoch_start true pl s = Ok s.
Proof.
  intros Hrun Hcur Hz. destruct (running_window _ _ _ _ _ _ Hrun) as [Hst Hen].
  unfold on_train_epoch_start. rewrite Hst, py_eq_int.
  rewrite (proj2 (Z.eqb_neq _ _)) by lia. simpl.
  rewrite Hst, py_le_int, (proj2 (Z.leb_gt _ _)) by lia. simpl.
  rewrite Hen. simpl. by rewrite (proj2 (Z.ltb_ge _ _)) by lia.
Qed.

Ltac monad := cbn [mbind result_bind mret result_ret].

Lemma start_swa_running copy n entry s t w :
  run copy n [entry] s t w →
  let moved := set_device (device_or (_device cb) (device pl)) copy in
  ∃ s', start_swa true pl s = Ok s' ∧
    run moved (Some 0) [swa_entry o cb (epochs_run E bn) entry] s'
      (EvSwapScheduler :: t) w ∧
    current_epoch (trainer s') = current_epoch (trainer s).
Proof.
  intros [Hs Hm Hbn Ham Hdev Hl Ha Hg Hn Ht Ho Hsc Hnb Hacc Hlen Htr Hts].
  unfold start_swa. rewrite Ham, Hsc, Ho. simpl.
  eexists. split; [reflexivity|]. split; [|done].
  constructor; simpl; try done.
  - by rewrite Hdev.
  - unfold swa_entry. by rewrite Hl, Ha, Hg, Ht.
  - by f_equal.
Qed.

Lemma average_epoch_running am n scheds s t w :
  run am (Some n) scheds s t w →
  ∃ s', average_epoch pl s = Ok s' ∧
    run am (Some (n + 1)) scheds s' (EvUpdateParameters am pl n :: t)
      (update_parameters am pl n avg_fn w).1 ∧
    current_epoch (trainer s') = current_epoch (trainer s).
Proof.
  intros [Hs Hm Hbn Ham Hdev Hl Ha Hg Hn Ht Ho Hsc Hnb Hacc Hlen Htr Hts].
  unfold average_epoch. rewrite Ham, Hn. simpl.
  eexists. split; [reflexivity|]. split; [|done].
  constructor; simpl; try done; by f_equal.
Qed.

Lemma start_first copy n entry s t w :
  run copy n [entry] s t w →
  current_epoch (trainer s) = a → a ≤ z →
  let moved := set_device (device_or (_device cb) (device pl)) copy in
  ∃ s', on_train_epoch_start true pl s = Ok s' ∧
    run moved (Some 1) [swa_entry o cb (epochs_run E bn) entry] s'
      (EvUpdateParameters moved pl 0 :: EvSwapScheduler :: t)
      (update_parameters moved pl 0 avg_fn w).1 ∧
    current_epoch (trainer s') = a.
Proof.
  intros Hrun Hcur Haz moved.
  destruct (running_window _ _ _ _ _ _ Hrun) as [Hst Hen].
  destruct (start_swa_running _ _ _ _ _ _ Hrun) as (s1 & H1 & Hrun1 & Hcur1).
  destruct (running_window _ _ _ _ _ _ Hrun1) as [Hst1 Hen1].
  destruct (average_epoch_running _ _ _ _ _ _ Hrun1)
    as (s2 & H2 & Hrun2 & Hcur2).
  destruct (running_window _ _ _ _ _ _ Hrun2) as [Hst2 Hen2].
  unfold on_train_epoch_start. rewrite Hst, py_eq_int, Hcur, Z.eqb_refl, H1.
  monad. rewrite Hst1, py_le_int, Z.leb_refl, Hen1. monad.
  rewrite (proj2 (Z.leb_le _ _)) by lia. rewrite H2. monad.
  rewrite Hen2. monad. rewrite (proj2 (Z.ltb_ge _ _)) by lia.
  exists s2. split; [done|]. split; [done|]. congruence.
Qed.

Lemma start_later am n scheds s t w :
  run am (Some n) scheds s t w →
  a < current_epoch (trainer s) ≤ z →
  ∃ s', on_train_epoch_start true pl s = Ok s' ∧
    run am (Some (n + 1)) scheds s' (EvUpdateParameters am pl n :: t)
      (update_parameters am pl n avg_fn w).1 ∧
    current_epoch (trainer s') = current_epoch (trainer s).
Proof.
  intros Hrun Hcur.
  destruct (running_window _ _ _ _ _ _ Hrun) as [Hst Hen].
  destruct (average_epoch_running _ _ _ _ _ _ Hrun)
    as (s2 & H2 & Hrun2 & Hcur2).
  destruct (running_window _ _ _ _ _ _ Hrun2) as [Hst2 Hen2].
  unfold on_train_epoch_start. rewrite Hst, py_eq_int.
  rewrite (proj2 (Z.eqb_neq _ _)) by lia. monad.
  rewrite Hst, py_le_int, (proj2 (Z.leb_le _ _)) by lia. rewrite Hen. monad.
  rewrite (proj2 (Z.leb_le _ _)) by lia. rewrite H2. monad.
  rewrite Hen2. monad. rewrite (proj2 (Z.ltb_ge _ _)) by lia.
  by exists s2.
Qed.

Lemma end_quiet am n scheds s t w :
  run am n scheds s t w → current_epoch (trainer s) < z →
  ∃ s', on_train_epoch_end pl s = Ok s' ∧ run am n scheds s' t w.
Proof.
  intros Hrun Hcur. destruct (running_window _ _ _ _ _ _ Hrun) as [Hst Hen].
  unfold on_train_epoch_end. rewrite Hen. simpl.
  rewrite (proj2 (Z.eqb_neq _ _)) by lia. simpl.
  rewrite (proj2 (Z.ltb_ge _ _)) by lia.
  eexists. split; [reflexivity|]. by destruct Hrun.
Qed.

Lemma end_last am n scheds s t w :
  run am n scheds s t w → current_epoch (trainer s) = z →
  ∃ s', on_train_epoch_end pl s = Ok s' ∧
    run am n scheds s'
      (if bn then t else EvTransferWeights am pl :: t)
      (if bn then w else transfer_weights am pl w).
Proof.
  intros Hrun Hcur. destruct (running_window _ _ _ _ _ _ Hrun) as [Hst Hen].
  destruct Hrun as [Hs Hm Hbn Ham Hdev Hl Ha Hg Hn Ht Ho Hsc Hnb Hacc Hlen Htr Hts].
  unfold on_train_epoch_end. rewrite Hen. simpl.
  rewrite Hcur, Hbn, Z.eqb_refl. destruct bn; simpl.
  - rewrite Z.ltb_irrefl. eexists. split; [reflexivity|]. by constructor.
  - rewrite Ham. simpl. eexists. split; [reflexivity|].
    constructor; simpl; try done; by f_equal.
Qed.

End Epochs.

Ltac monad := cbn [mbind result_bind mret result_ret].

(** The recalibration epoch: between its two hooks the trainer counts one
    batch more and accumulates over the whole loader. *)
Section Recalibration.
Variables (pl : LightningModule) (training : Z → list tensor).
Variables (k E : Z) (bn : bool) (o : nat).
Variables (cb : StochasticWeightAveraging) (tr : Trainer) (len : Z).
Hypothesis Hlen : train_dataloader_len tr = Some len.

Let during : Trainer :=
  set_accumulate_grad_batches len
    (set_num_training_batches (num_training_batches tr + 1) tr).

Lemma start_batch_norm_epoch_running am n scheds s t w :
  running k E bn o cb tr am n scheds s t w →
  ∃ s', start_batch_norm_epoch pl s = Ok s' ∧
    running k E bn o cb during am n scheds s'
      (EvResetBatchNorm :: EvTransferWeights am pl :: t)
      (transfer_weights am pl w) ∧
    current_epoch (trainer s') = current_epoch (trainer s) ∧
    _accumulate_grad_batches (callback s')
    = Some (accumulate_grad_batches tr) ∧
    is_Some (momenta (callback s')).
Proof.
  intros [Hs Hm Hbn Ham Hdev Hl Ha Hg Hn Ht Ho Hsc Hnb Hacc Hlen' Htr Hts].
  unfold start_batch_norm_epoch. rewrite Ham. simpl.
  rewrite Hlen', Hlen. simpl.
  eexists. split; [reflexivity|]. simpl.
  split; [|split; [done|split; [by rewrite Hacc|by eexists]]].
  constructor; simpl; rewrite ?Hnb, ?Htr; try done; by f_equal.
Qed.

Lemma start_recalibration am n scheds s t w :
  running k E bn o cb tr am n scheds s t w →
  last_epoch E < current_epoch (trainer s) →
  current_epoch (trainer s) ≠ first_epoch k →
  ∃ s', on_train_epoch_start true pl s = Ok s' ∧
    running k E bn o cb during am n scheds s'
      (EvResetBatchNorm :: EvTransferWeights am pl :: t)
      (transfer_weights am pl w) ∧
    current_epoch (trainer s') = current_epoch (trainer s) ∧
    _accumulate_grad_batches (callback s')
    = Some (accumulate_grad_batches tr) ∧
    is_Some (momenta (callback s')).
Proof.
  intros Hrun Hcur Hne.
  destruct (running_window _ _ _ _ _ _ _ _ _ _ _ _ Hrun) as [Hst Hen].
  destruct (start_batch_norm_epoch_running _ _ _ _ _ _ Hrun)
    as (s2 & H2 & Hrest).
  unfold on_train_epoch_start. rewrite Hst, py_eq_int.
  rewrite (proj2 (Z.eqb_neq _ _)) by lia. monad.
  rewrite Hst, py_le_int, Hen.
  destruct (first_epoch k <=? current_epoch (trainer s)); monad;
    rewrite ?(proj2 (Z.leb_gt _ (last_epoch E))) by lia; monad;
    rewrite Hen; monad; rewrite (proj2 (Z.ltb_lt _ _)) by lia;
    by exists s2.
Qed.

Lemma start_first_recalibration copy n entry s t w :
  running k E bn o cb tr copy n [entry] s t w →
  last_epoch E < current_epoch (trainer s) →
  current_epoch (trainer s) = first_epoch k →
  let moved := set_device (device_or (_device cb) (device pl)) copy in
  ∃ s', on_train_epoch_start true pl s = Ok s' ∧
    running k E bn o cb during moved (Some 0)
      [swa_entry o cb (epochs_run E bn) entry] s'
      (EvResetBatchNorm :: EvTransferWeights moved pl :: EvSwapScheduler :: t)
      (transfer_weights moved pl w) ∧
    current_epoch (trainer s') = current_epoch (trainer s) ∧
    _accumulate_grad_batches (callback s')
    = Some (accumulate_grad_batches tr) ∧
    is_Some (momenta (callback s')).
Proof.
  intros Hrun Hcur Heq moved.
  destruct (running_window _ _ _ _ _ _ _ _ _ _ _ _ Hrun) as [Hst Hen].
  destruct (start_swa_running pl _ _ _ _ _ _ _ _ _ _ _ _ Hrun)
    as (s1 & H1 & Hrun1 & Hcur1).
  destruct (running_window _ _ _ _ _ _ _ _ _ _ _ _ Hrun1) as [Hst1 Hen1].
  destruct (start_batch_norm_epoch_running _ _ _ _ _ _ Hrun1)
    as (s2 & H2 & Hrun2 & Hcur2 & Hrest).
  unfold on_train_epoch_start. rewrite Hst, py_eq_int, Heq, Z.eqb_refl, H1.
  monad. rewrite Hst1, py_le_int, Z.leb_refl, Hen1. monad.
  rewrite (proj2 (Z.leb_gt _ _)) by lia. monad.
  rewrite Hen1. monad. rewrite (proj2 (Z.ltb_lt _ _)) by lia.
  exists s2. split; [done|]. split; [done|]. split; [congruence|done].
Qed.

Lemma end_recalibration am n scheds s t w :
  running k E bn o cb during am n scheds s t w →
  last_epoch E < current_epoch (trainer s) →
  _accumulate_grad_batches (callback s) = Some (accumulate_grad_batches tr) →
  is_Some (momenta (callback s)) →
  ∃ s', on_train_epoch_end pl s = Ok s' ∧
    running k E bn o cb tr am n scheds s' (EvResetMomenta :: t) w.
Proof.
  intros Hrun Hcur Hacc' [mom Hmom].
  destruct (running_window _ _ _ _ _ _ _ _ _ _ _ _ Hrun) as [Hst Hen].
  destruct Hrun as [Hs Hm Hbn Ham Hdev Hl Ha Hg Hn Ht Ho Hsc Hnb Hacc Hlen' Htr Hts].
  unfold on_train_epoch_end. rewrite Hen. simpl.
  rewrite (proj2 (Z.eqb_neq _ _)) by lia. simpl.
  rewrite (proj2 (Z.ltb_lt _ _)) by lia. rewrite Hacc'. simpl.
  unfold reset_momenta. rewrite Hmom. simpl.
  eexists. split; [reflexivity|].
  constructor; simpl; try done; try (by f_equal).
  rewrite Hnb. simpl. lia.
Qed.

End Recalibration.

Lemma running_eq k E bn o cb tr am n n' scheds s t t' w w' :
  running k E bn o cb tr am n scheds s t w →
  n = n' → t = t' → tensors w = tensors w' →
  running k E bn o cb tr am n' scheds s t' w'.
Proof. intros [] <- <- Hw. constructor; try done. congruence. Qed.

(** One epoch after the other. *)
Section Steps.
Variables (pl : LightningModule) (training : Z → list tensor).
Variables (k E : Z) (bn : bool) (o : nat) (entry : lr_scheduler_config).
Variables (cb : StochasticWeightAveraging) (tr : Trainer) (len : Z).
Variable copy : LightningModule.
Hypothesis Hlen : bn = true → train_dataloader_len tr = Some len.

Let a := first_epoch k.
Let z := last_epoch E.
Let moved := set_device (device_or (_device cb) (device pl)) copy.

(** The run before epoch [e]. *)
Let run_at (e : Z) : state → list event → world → Prop :=
  running k E bn o cb tr
    (if a <? e then moved else copy)
    (if a <? e then Some (updates_before a z e) else n_averaged cb)
    [if a <? e then swa_entry o cb (epochs_run E bn) entry else entry].

Ltac window :=
  unfold a, z, first_epoch, last_epoch, epochs_run, updates_before in *; lia.

Ltac tests :=
  repeat match goal with
    | |- context [Z.eqb ?x ?y] =>
        first [rewrite (proj2 (Z.eqb_eq x y)) by window
              |rewrite (proj2 (Z.eqb_neq x y)) by window]
    | |- context [Z.leb ?x ?y] =>
        first [rewrite (proj2 (Z.leb_le x y)) by window
              |rewrite (proj2 (Z.leb_gt x y)) by window]
    | |- context [Z.ltb ?x ?y] =>
        first [rewrite (proj2 (Z.ltb_lt x y)) by window
              |rewrite (proj2 (Z.ltb_ge x y)) by window]
    end.

Ltac tests_in H :=
  repeat match type of H with
    | context [Z.eqb ?x ?y] =>
        first [rewrite (proj2 (Z.eqb_eq x y)) in H by window
              |rewrite (proj2 (Z.eqb_neq x y)) in H by window]
    | context [Z.leb ?x ?y] =>
        first [rewrite (proj2 (Z.leb_le x y)) in H by window
              |rewrite (proj2 (Z.leb_gt x y)) in H by window]
    | context [Z.ltb ?x ?y] =>
        first [rewrite (proj2 (Z.ltb_lt x y)) in H by window
              |rewrite (proj2 (Z.ltb_ge x y)) in H by window]
    end.

Lemma epoch_step e s t w :
  run_at e s t w → 0 ≤ e < epochs_run E bn →
  ∃ sa sb, run_epoch true pl training e s = Ok (sa, sb) ∧
    run_at (e + 1) sb (rev (epoch_events a z bn copy moved pl e) ++ t)
      (epoch_store a z bn copy moved pl training e w).
Proof.
  intros Hrun He. unfold run_at in *. unfold run_epoch.
  edestruct (running_enter k E bn o cb tr e) as [Hin Hcur]; [exact Hrun|].
  clear Hrun.
  unfold epoch_events, epoch_store, averaged_at.
  destruct (Z.lt_total e a) as [Ha|[Ha|Ha]];
    destruct (Z.lt_total e z) as [Hz|[Hz|Hz]].
  - (* before the window, before the last epoch *)
    tests_in Hin. tests.
    erewrite (start_quiet pl) by first [exact Hin|window]. monad.
    edestruct (running_leave pl training k E bn o cb tr e) as [Hout Hcur'];
      [exact Hin|].
    edestruct (end_quiet pl) as (sb & -> & Hb); [exact Hout|window|].
    monad. eexists _, _. split; [reflexivity|].
    destruct bn; exact Hb.
  - (* before the window, the last epoch *)
    tests_in Hin. tests.
    erewrite (start_quiet pl) by first [exact Hin|window]. monad.
    edestruct (running_leave pl training k E bn o cb tr e) as [Hout Hcur'];
      [exact Hin|].
    edestruct (end_last pl) as (sb & -> & Hb); [exact Hout|window|].
    monad. eexists _, _. split; [reflexivity|].
    eapply running_eq; [exact Hb|..]; destruct bn; simpl; done.
  - (* before the window, the recalibration epoch *)
    assert (bn = true) as Hbn by (destruct bn; [done|window]).
    specialize (Hlen Hbn). tests_in Hin. tests.
    edestruct (start_recalibration pl k E bn o cb tr len Hlen)
      as (sa & -> & Ha' & Hcura & Hacc & Hmom); [exact Hin|window|window|].
    monad.
    edestruct (running_leave pl training k E bn o cb) as [Hout Hcur'];
      [exact Ha'|].
    edestruct (end_recalibration pl k E bn o cb tr len) as (sb & -> & Hb);
      [exact Hout|window|exact Hacc|exact Hmom|].
    monad. eexists _, _. split; [reflexivity|].
    eapply running_eq; [exact Hb|..]; subst bn; simpl; done.
  - (* the first epoch of the window, not the last *)
    tests_in Hin. tests.
    edestruct (start_first pl k E bn o cb tr copy)
      as (sa & -> & Ha' & Hcura); [exact Hin|window|window|].
    monad.
    edestruct (running_leave pl training k E bn o cb tr e) as [Hout Hcur'];
      [exact Ha'|].
    edestruct (end_quiet pl) as (sb & -> & Hb); [exact Hout|window|].
    monad. eexists _, _. split; [reflexivity|].
    eapply running_eq; [exact Hb|f_equal; window|..]; simpl;
      repeat f_equal; window.
  - (* the first and last epoch of the window *)
    tests_in Hin. tests.
    edestruct (start_first pl k E bn o cb tr copy)
      as (sa & -> & Ha' & Hcura); [exact Hin|window|window|].
    monad.
    edestruct (running_leave pl training k E bn o cb tr e) as [Hout Hcur'];
      [exact Ha'|].
    edestruct (end_last pl) as (sb & -> & Hb); [exact Hout|window|].
    monad. eexists _, _. split; [reflexivity|].
    eapply running_eq; [exact Hb|f_equal; window|..]; destruct bn; simpl;
      repeat f_equal; window.
  - (* the window starts in the recalibration epoch *)
    assert (bn = true) as Hbn by (destruct bn; [done|window]).
    specialize (Hlen Hbn). tests_in Hin. tests.
    edestruct (start_first_recalibration pl k E bn o cb tr len Hlen copy)
      as (sa & -> & Ha' & Hcura & Hacc & Hmom); [exact Hin|window|window|].
    monad.
    edestruct (running_leave pl training k E bn o cb) as [Hout Hcur'];
      [exact Ha'|].
    edestruct (end_recalibration pl k E bn o cb tr len) as (sb & -> & Hb);
      [exact Hout|window|exact Hacc|exact Hmom|].
    monad. eexists _, _. split; [reflexivity|].
    eapply running_eq; [exact Hb|f_equal; window|..]; subst bn; simpl;
      repeat f_equal; window.
  - (* inside the window *)
    tests_in Hin. tests.
    edestruct (start_later pl k E bn o cb tr)
      as (sa & -> & Ha' & Hcura); [exact Hin|window|].
    monad.
    edestruct (running_leave pl training k E bn o cb tr e) as [Hout Hcur'];
      [exact Ha'|].
    edestruct (end_quiet pl) as (sb & -> & Hb); [exact Hout|window|].
    monad. eexists _, _. split; [reflexivity|].
    eapply running_eq; [exact Hb|f_equal; window|..]; simpl;
      repeat f_equal; window.
  - (* the last epoch of the window *)
    tests_in Hin. tests.
    edestruct (start_later pl k E bn o cb tr)
      as (sa & -> & Ha' & Hcura); [exact Hin|window|].
    monad.
    edestruct (running_leave pl training k E bn o cb tr e) as [Hout Hcur'];
      [exact Ha'|].
    edestruct (end_last pl) as (sb & -> & Hb); [exact Hout|window|].
    monad. eexists _, _. split; [reflexivity|].
    eapply running_eq; [exact Hb|f_equal; window|..]; destruct bn; simpl;
      repeat f_equal; window.
  - (* the recalibration epoch, after the window *)
    assert (bn = true) as Hbn by (destruct bn; [done|window]).
    specialize (Hlen Hbn). tests_in Hin. tests.
    edestruct (start_recalibration pl k E bn o cb tr len Hlen)
      as (sa & -> & Ha' & Hcura & Hacc & Hmom); [exact Hin|window|window|].
    monad.
    edestruct (running_leave pl training k E bn o cb) as [Hout Hcur'];
      [exact Ha'|].
    edestruct (end_recalibration pl k E bn o cb tr len) as (sb & -> & Hb);
      [exact Hout|window|exact Hacc|exact Hmom|].
    monad. eexists _, _. split; [reflexivity|].
    eapply running_eq; [exact Hb|f_equal; window|..]; subst bn; simpl;
      repeat f_equal; window.
Qed.

Lemma epochs_from n : ∀ start s t w,
  run_at (Z.of_nat start) s t w →
  Z.of_nat (start + n) ≤ epochs_run E bn →
  ∃ history s_end,
    run_epochs true pl training (Z.of_nat <$> seq start n) s = Ok history ∧
    last (s :: history) = Some s_end ∧
    run_at (Z.of_nat (start + n)) s_end
      (rev (flat_map (epoch_events a z bn copy moved pl)
              (Z.of_nat <$> seq start n)) ++ t)
      (foldl (λ w e, epoch_store a z bn copy moved pl training e w) w
         (Z.of_nat <$> seq start n)).
Proof.
  induction n as [|n IH]; intros start s t w Hrun Hle.
  - exists [], s. rewrite Nat.add_0_r. split; [done|]. split; [done|].
    exact Hrun.
  - destruct (epoch_step (Z.of_nat start) s t w Hrun) as (sa & sb & Hstep & Hb);
      [lia|].
    replace (Z.of_nat start + 1) with (Z.of_nat (S start)) in Hb by lia.
    destruct (IH (S start) sb _ _ Hb) as (more & s_end & Hmore & Hlast & Hend);
      [lia|].
    exists (sa :: sb :: more), s_end.
    change (Z.of_nat <$> seq start (S n))
      with (Z.of_nat start :: (Z.of_nat <$> seq (S start) n)).
    split; [by apply run_epochs_cons|]. split; [exact Hlast|].
    replace (start + S n)%nat with (S start + n)%nat by lia.
    cbn [flat_map foldl].
    rewrite rev_app_distr, <- app_assoc. exact Hend.
Qed.

End Steps.

Lemma setup_running pl w cb tr k o entry :
  _swa_epoch_start cb = PInt k →
  optimizers tr = [o] → lr_schedulers tr = [entry] →
  ∃ s0,
    on_before_accelerator_backend_setup pl
      {| callback := cb; trainer := tr; heap := w |} = Ok s0 ∧
    running k (max_epochs tr)
      (pl_module_contains_batch_norm pl (deepcopy pl w).2) o cb tr
      (deepcopy pl w).1 (n_averaged cb) [entry] s0 (trace w)
      (deepcopy pl w).2.
Proof.
  intros Hk Ho Hs. unfold on_before_accelerator_backend_setup.
  cbn -[deepcopy pl_module_contains_batch_norm]. rewrite Ho, Hs, Hk.
  cbn -[deepcopy pl_module_contains_batch_norm].
  eexists. split; [reflexivity|].
  destruct (pl_module_contains_batch_norm _ _);
    constructor; cbn -[deepcopy]; try done;
    first [apply deepcopy_trace | unfold epochs_run; lia].
Qed.

End SWARuns.

(** * The copy of the model *)
Module SWACopy.
Import Py SWA SWASchedule Fixtures SWAFacts SWAProperties SWARuns.

(** ** The copy that the setup hook makes *)

Lemma copy_cells_fst {A} ls : ∀ next (m : gmap loc A),
  (copy_cells ls next m).1 = seq next (length ls).
Proof.
  induction ls as [|l ls IH]; intros next m; simpl; [done|].
  specialize (IH (S next)
                (match m !! l with Some v => <[next:=v]> m | None => m end)).
  destruct (copy_cells ls _ _). simpl in *. by f_equal.
Qed.

Lemma copy_cells_old {A} ls : ∀ next (m : gmap loc A) (l : loc),
  (l < next)%nat → (copy_cells ls next m).2 !! l = m !! l.
Proof.
  induction ls as [|l0 ls IH]; intros next m l Hl; simpl; [done|].
  destruct (m !! l0) as [v|] eqn:E.
  - specialize (IH (S next) (<[next:=v]> m) l).
    destruct (copy_cells ls _ _). simpl in *. rewrite IH by lia.
    apply lookup_insert_ne. lia.
  - specialize (IH (S next) m l).
    destruct (copy_cells ls _ _). simpl in *. apply IH. lia.
Qed.

Lemma copy_cells_new {A} ls : ∀ next (m : gmap loc A),
  (∀ l : loc, l ∈ ls → (l < next)%nat ∧ is_Some (m !! l)) →
  ∀ i l, ls !! i = Some l →
         (copy_cells ls next m).2 !! (next + i)%nat = m !! l.
Proof.
  induction ls as [|l0 ls IH]; intros next m Hls i l Hi; [done|].
  simpl.
  destruct (Hls l0 (list_elem_of_here _ _)) as [Hlt [v Hv]].
  rewrite Hv.
  pose proof (copy_cells_old ls (S next) (<[next:=v]> m)) as Hold.
  specialize (IH (S next) (<[next:=v]> m)).
  destruct (copy_cells ls _ _) as [ls2 m2]. simpl in *.
  destruct i as [|i]; simpl in Hi.
  - injection Hi as <-. rewrite Nat.add_0_r, Hold by lia.
    by rewrite lookup_insert_eq.
  - replace (next + S i)%nat with (S (next + i))%nat by lia.
    destruct (Hls l (list_elem_of_further _ _ _ (list_elem_of_lookup_2 _ _ _ Hi)))
      as [Hl [u Hu]].
    rewrite (IH) with (l := l); [|..|exact Hi].
    + apply lookup_insert_ne. lia.
    + intros l' Hl'.
      destruct (Hls l' (list_elem_of_further _ _ _ Hl')) as [Hlt' Hs'].
      split; [lia|]. rewrite lookup_insert_ne by lia. done.
Qed.

Lemma dedup_from_NoDup l : NoDup l → ∀ seen,
  (∀ x, x ∈ l → x ∉ seen) → dedup_from seen l = l.
Proof.
  induction 1 as [|x l Hx Hnd IH]; intros seen Hseen; simpl; [done|].
  destruct (existsb (Nat.eqb x) seen) eqn:Eb.
  - exfalso. apply existsb_exists in Eb as (y & Hy & Hxy).
    apply Nat.eqb_eq in Hxy. subst y.
    apply (Hseen x); [apply list_elem_of_here|by apply list_elem_of_In].
  - f_equal. apply IH. intros y Hy Hin.
    apply elem_of_cons in Hin as [->|Hin]; [done|].
    apply (Hseen y); [by apply list_elem_of_further|done].
Qed.

Lemma elem_of_parameters m p : p ∈ parameters m ↔ p ∈ param_slots m.
Proof. unfold parameters. rewrite elem_of_dedup_from, elem_of_nil. tauto. Qed.

Section Copy.
Variables (pl : LightningModule) (w : world).
Hypothesis Halloc : allocated pl w.

Lemma deepcopy_parameters :
  parameters (deepcopy pl w).1 = seq (next_loc w) (length (parameters pl)).
Proof.
  unfold deepcopy.
  pose proof (copy_cells_fst (parameters pl) (next_loc w) (tensors w)) as Hp.
  destruct (copy_cells (parameters pl) _ _) as [ps ts].
  destruct (copy_cells (modules pl) _ _) as [ms mo]. simpl in *.
  unfold parameters at 1. simpl. rewrite Hp.
  apply dedup_from_NoDup; [apply NoDup_seq|]. intros x _. apply not_elem_of_nil.
Qed.

Lemma deepcopy_tensors_old (l : loc) :
  (l < next_loc w)%nat → tensors (deepcopy pl w).2 !! l = tensors w !! l.
Proof.
  intros Hl. unfold deepcopy.
  pose proof (copy_cells_old (parameters pl) (next_loc w) (tensors w) l Hl)
    as Hp.
  destruct (copy_cells (parameters pl) _ _) as [ps ts].
  by destruct (copy_cells (modules pl) _ _) as [ms mo].
Qed.

Lemma deepcopy_modules_old (l : loc) :
  (l < next_loc w)%nat →
  module_objs (deepcopy pl w).2 !! l = module_objs w !! l.
Proof.
  intros Hl. unfold deepcopy.
  destruct (copy_cells (parameters pl) _ _) as [ps ts].
  pose proof (copy_cells_old (modules pl)
                (next_loc w + length (parameters pl)) (module_objs w) l) as Hm.
  destruct (copy_cells (modules pl) _ _) as [ms mo]. simpl in *.
  apply Hm. lia.
Qed.

Lemma deepcopy_tensors_new i p :
  parameters pl !! i = Some p →
  tensors (deepcopy pl w).2 !! (next_loc w + i)%nat = tensors w !! p.
Proof.
  intros Hi. unfold deepcopy.
  pose proof (copy_cells_new (parameters pl) (next_loc w) (tensors w)) as Hp.
  destruct (copy_cells (parameters pl) _ _) as [ps ts].
  destruct (copy_cells (modules pl) _ _) as [ms mo]. simpl in *.
  apply Hp with (i := i) (l := p); [|done].
  intros l Hl. apply Halloc. by apply elem_of_parameters.
Qed.

Lemma deepcopy_separate d :
  separate (set_device d (deepcopy pl w).1) pl.
Proof.
  intros c Hc Hp.
  change (parameters (set_device d (deepcopy pl w).1))
    with (parameters (deepcopy pl w).1) in Hc.
  rewrite deepcopy_parameters in Hc. apply elem_of_seq in Hc.
  apply elem_of_parameters in Hp. apply Halloc in Hp. lia.
Qed.

Lemma deepcopy_batch_norm :
  pl_module_contains_batch_norm pl (deepcopy pl w).2
  = pl_module_contains_batch_norm pl w.
Proof.
  unfold pl_module_contains_batch_norm.
  assert (∀ l, l ∈ modules pl →
               module_objs (deepcopy pl w).2 !! l = module_objs w !! l) as H.
  { intros l Hl. apply deepcopy_modules_old.
    apply elem_of_modules in Hl. by apply Halloc in Hl as [? _]. }
  induction (modules pl) as [|l ms IH]; [done|].
  cbn [existsb]. rewrite (H l) by apply list_elem_of_here. f_equal.
  apply IH. intros l' Hl'. apply H. by apply list_elem_of_further.
Qed.

End Copy.

End SWACopy.

(** * The whole run *)
Module SWAFit.
Import Py SWA SWASchedule Fixtures SWAFacts SWARuns SWACopy.

(** The whole of [fit]: the setup hook, then every epoch. *)
Lemma fit_run pl w tr training cb k o entry len :
  _swa_epoch_start cb = PInt k →
  optimizers tr = [o] → lr_schedulers tr = [entry] →
  0 ≤ max_epochs tr →
  (pl_module_contains_batch_norm pl (deepcopy pl w).2 = true →
   train_dataloader_len tr = Some len) →
  ∃ s0 history s_end,
    fit true pl training {| callback := cb; trainer := tr; heap := w |}
    = Ok (s0 :: history) ∧
    last (s0 :: history) = Some s_end ∧
    running k (max_epochs tr)
      (pl_module_contains_batch_norm pl (deepcopy pl w).2) o cb tr
      (if first_epoch k
          <? epochs_run (max_epochs tr)
               (pl_module_contains_batch_norm pl (deepcopy pl w).2)
       then set_device (device_or (_device cb) (device pl)) (deepcopy pl w).1
       else (deepcopy pl w).1)
      (if first_epoch k
          <? epochs_run (max_epochs tr)
               (pl_module_contains_batch_norm pl (deepcopy pl w).2)
       then Some (updates_before (first_epoch k) (last_epoch (max_epochs tr))
                    (epochs_run (max_epochs tr)
                       (pl_module_contains_batch_norm pl (deepcopy pl w).2)))
       else n_averaged cb)
      [if first_epoch k
          <? epochs_run (max_epochs tr)
               (pl_module_contains_batch_norm pl (deepcopy pl w).2)
       then swa_entry o cb
              (epochs_run (max_epochs tr)
                 (pl_module_contains_batch_norm pl (deepcopy pl w).2)) entry
       else entry]
      s_end
      (rev (flat_map
              (epoch_events (first_epoch k) (last_epoch (max_epochs tr))
                 (pl_module_contains_batch_norm pl (deepcopy pl w).2)
                 (deepcopy pl w).1
                 (set_device (device_or (_device cb) (device pl))
                    (deepcopy pl w).1) pl)
              (epoch_range
                 (epochs_run (max_epochs tr)
                    (pl_module_contains_batch_norm pl (deepcopy pl w).2))))
       ++ trace w)
      (foldl (λ v e,
                epoch_store (first_epoch k) (last_epoch (max_epochs tr))
                  (pl_module_contains_batch_norm pl (deepcopy pl w).2)
                  (deepcopy pl w).1
                  (set_device (device_or (_device cb) (device pl))
                     (deepcopy pl w).1) pl training e v)
         (deepcopy pl w).2
         (epoch_range
            (epochs_run (max_epochs tr)
               (pl_module_contains_batch_norm pl (deepcopy pl w).2)))).
Proof.
  intros Hk Ho Hs HE Hlen.
  set (bn := pl_module_contains_batch_norm pl (deepcopy pl w).2) in *.
  destruct (setup_running pl w cb tr k o entry Hk Ho Hs) as (s0 & Hsetup & H0).
  fold bn in H0.
  pose proof (epochs_from pl training k (max_epochs tr) bn o entry cb tr len
                (deepcopy pl w).1 Hlen
                (Z.to_nat (epochs_run (max_epochs tr) bn)) 0%nat s0
                (trace w) (deepcopy pl w).2) as Hall.
  cbv zeta in Hall.
  assert (0 ≤ epochs_run (max_epochs tr) bn) as HT
    by (unfold epochs_run; destruct bn; lia).
  change (Z.of_nat 0) with 0 in Hall. cbv beta in Hall.
  rewrite (proj2 (Z.ltb_ge (first_epoch k) 0)) in Hall
    by (unfold first_epoch; lia).
  rewrite Nat.add_0_l, Z2Nat.id in Hall by done.
  destruct (Hall H0) as (history & s_end & Hhist & Hlast & Hend); [lia|].
  exists s0, history, s_end. split; [|split; [done|exact Hend]].
  unfold fit. rewrite Hsetup. monad.
  rewrite (at_total _ _ _ _ _ _ _ _ _ _ _ _ H0).
  unfold epoch_range. rewrite Hhist. done.
Qed.

End SWAFit.

(** * One parameter in the store *)
Module SWAStore.
Import Py SWA SWASchedule Fixtures SWAFacts SWARuns SWACopy SWAFit.

(** ** What the static methods do to one parameter *)

Lemma tensor_mean_singleton x : tensor_mean [x] = x.
Proof. unfold tensor_mean. simpl. apply tensor_div_one. Qed.


Section OneParameter.
Variables (am pl : LightningModule).
Hypothesis Hsep : separate am pl.
Variables (i : nat) (c p : loc).
Hypothesis Hc : parameters am !! i = Some c.
Hypothesis Hp : parameters pl !! i = Some p.

Lemma c_not_host : c ∉ parameters pl.
Proof. apply Hsep. by eapply list_elem_of_lookup_2. Qed.

Lemma p_not_averaged : p ∉ parameters am.
Proof.
  intros Hin. apply (Hsep p Hin). by eapply list_elem_of_lookup_2.
Qed.


Lemma update_at_host n f w :
  tensors (update_parameters am pl n f w).1 !!! p = tensors w !!! p.
Proof.
  rewrite !lookup_total_alt. f_equal. simpl.
  destruct (update_fold_lookup n f (parameters am) (NoDup_parameters am)
              (parameters pl) (tensors w) Hsep) as [_ Hf].
  apply Hf, p_not_averaged.
Qed.


Lemma write_at_averaged vals w :
  tensors (write_parameters pl vals w) !!! c = tensors w !!! c.
Proof.
  rewrite !lookup_total_alt. f_equal. simpl.
  destruct (write_fold_lookup (parameters pl) (NoDup_parameters pl) vals
              (tensors w)) as [_ Hf].
  apply Hf, c_not_host.
Qed.

Lemma transfer_at_host w :
  tensors (transfer_weights am pl w) !!! p = tensors w !!! c.
Proof.
  simpl. rewrite (SWAProperties.transfer_as_update avg_fn).
  destruct (update_fold_lookup 0 avg_fn (parameters pl) (NoDup_parameters pl)
              (parameters am) (tensors w)) as [Hv _].
  { intros q Hq Hq'. by apply (Hsep q). }
  by rewrite (Hv i p c Hp Hc).
Qed.

End OneParameter.

End SWAStore.

(** * The tensors of a run *)
Module SWAWindow.
Import Py SWA SWASchedule Fixtures SWAFacts SWARuns SWACopy SWAFit SWAStore.

(** ** The tensors of a run without batch-norm layers *)

Section Host.
Variables (pl : LightningModule) (w : world) (d : string).
Variable training : Z → list tensor.
Variables (a z : Z).
Hypothesis Halloc : allocated pl w.
Variables (i : nat) (p : loc).
Hypothesis Hp : parameters pl !! i = Some p.

Let copy := (deepcopy pl w).1.
Let moved := set_device d copy.
Let c : loc := (next_loc w + i)%nat.
Let store := epoch_store a z false copy moved pl training.

Lemma averaged_parameter : parameters moved !! i = Some c.
Proof.
  change (parameters moved) with (parameters (deepcopy pl w).1).
  rewrite (deepcopy_parameters pl w).
  apply lookup_seq. split; [done|]. by eapply lookup_lt_Some.
Qed.

Lemma averaged_separate : separate moved pl.
Proof. exact (deepcopy_separate pl w Halloc d). Qed.


Lemma copy_holds_host_value :
  tensors (deepcopy pl w).2 !!! c = tensors w !!! p.
Proof.
  rewrite !lookup_total_alt. f_equal.
  by apply (deepcopy_tensors_new pl w Halloc).
Qed.


Ltac tests :=
  repeat match goal with
    | |- context [Z.eqb ?x ?y] =>
        first [rewrite (proj2 (Z.eqb_eq x y)) by lia
              |rewrite (proj2 (Z.eqb_neq x y)) by lia]
    | |- context [Z.leb ?x ?y] =>
        first [rewrite (proj2 (Z.leb_le x y)) by lia
              |rewrite (proj2 (Z.leb_gt x y)) by lia]
    | |- context [Z.ltb ?x ?y] =>
        first [rewrite (proj2 (Z.ltb_lt x y)) by lia
              |rewrite (proj2 (Z.ltb_ge x y)) by lia]
    end.

(** *** The window lies beyond the last epoch *)

Lemma late_epoch e W :
  e < a → e < z →
  tensors (store e W) !!! c = tensors W !!! c.
Proof.
  intros Ha Hz. unfold store, epoch_store, averaged_at. tests. cbn [andb].
  apply (write_at_averaged moved pl averaged_separate i c averaged_parameter).
Qed.

Lemma late_epochs n : ∀ start W,
  Z.of_nat (start + n) ≤ a → Z.of_nat (start + n) ≤ z →
  tensors (foldl (λ v e, store e v) W (Z.of_nat <$> seq start n)) !!! c
  = tensors W !!! c.
Proof.
  induction n as [|n IH]; intros start W Ha Hz; [done|].
  cbn [seq fmap list_fmap foldl]. rewrite IH by lia.
  apply late_epoch; lia.
Qed.

Lemma late_last_epoch W :
  z < a →
  tensors (store z W) !!! p = tensors W !!! c.
Proof.
  intros Ha. unfold store, epoch_store, averaged_at. tests. cbn [andb negb].
  assert (separate copy pl) as Hsep by exact averaged_separate.
  assert (parameters copy !! i = Some c) as Hc by exact averaged_parameter.
  rewrite (transfer_at_host copy pl Hsep i c p Hc Hp).
  apply (write_at_averaged moved pl averaged_separate i c averaged_parameter).
Qed.

Lemma late_run E :
  z = E - 1 → 0 ≤ z → z < a →
  tensors (foldl (λ v e, store e v) (deepcopy pl w).2 (epoch_range E)) !!! p
  = tensors w !!! p.
Proof.
  intros HE Hz Ha. unfold epoch_range.
  replace (Z.to_nat E) with (S (Z.to_nat z)) by lia.
  rewrite seq_S, fmap_app, foldl_app. cbn [fmap list_fmap foldl].
  rewrite Nat.add_0_l, Z2Nat.id by lia.
  rewrite late_last_epoch by lia.
  rewrite late_epochs by lia. apply copy_holds_host_value.
Qed.

(** *** The window ends with the last epoch *)

Variable x : Z → tensor.
Hypothesis Hx : ∀ e, training e !! i = Some (x e).

(** The value of the parameter when epoch [e] starts. *)
Let v (e : Z) : tensor := if e =? 0 then tensors w !!! p else x (e - 1).







End Host.

End SWAWindow.

(** * Whole runs: the schedule and the weights they leave *)
Module SWAWhole.
Import Py SWA SWASchedule Fixtures RunFixtures.
Import SWAFacts SWARuns SWACopy SWAFit SWAStore SWAWindow.

(** ** Whole runs *)


Lemma bn_model_allocated : allocated bn_model demo_world.
Proof.
  split; intros l Hl; apply list_elem_of_In in Hl; simpl in Hl;
    repeat (destruct Hl as [<-|Hl]; [split; [simpl; lia|by eexists]|]);
    done.
Qed.

Lemma plain_model_allocated : allocated plain_model demo_world.
Proof.
  split; intros l Hl; apply list_elem_of_In in Hl; simpl in Hl;
    repeat (destruct Hl as [<-|Hl]; [split; [simpl; lia|by eexists]|]);
    done.
Qed.




(** An integer [swa_epoch_start] beyond [max_epochs] is accepted by
    [__init__] and by the setup hook. No epoch is averaged then, but the
    end hook of the last epoch still transfers the weights of the copy
    that the setup hook made: without batch-norm layers the host model
    ends the run with the parameters it had before training, whatever was
    trained; the counter and the scheduler are untouched. *)
Theorem late_start_undoes_training
    (pl : LightningModule) (w : world) (tr : Trainer)
    (training : Z → list tensor) (cb : StochasticWeightAveraging)
    (k : Z) (o : nat) (entry : lr_scheduler_config) :
  _swa_epoch_start cb = PInt k →
  optimizers tr = [o] → lr_schedulers tr = [entry] →
  allocated pl w →
  pl_module_contains_batch_norm pl w = false →
  1 ≤ max_epochs tr < k →
  ∃ s0 history s_end,
    fit true pl training {| callback := cb; trainer := tr; heap := w |}
    = Ok (s0 :: history) ∧
    last (s0 :: history) = Some s_end ∧
    (∀ p, p ∈ parameters pl → tensors (heap s_end) !!! p = tensors w !!! p) ∧
    n_averaged (callback s_end) = n_averaged cb ∧
    lr_schedulers (trainer s_end) = [entry].
Proof.
  intros Hk Ho Hs Halloc Hbn HE.
  pose proof (deepcopy_batch_norm pl w Halloc) as Hbn'.
  rewrite Hbn in Hbn'.
  destruct (fit_run pl w tr training cb k o entry 0 Hk Ho Hs)
    as (s0 & history & s_end & Hfit & Hlast & Hrun).
  { lia. }
  { rewrite Hbn'. discriminate. }
  rewrite Hbn' in Hrun.
  change (epochs_run (max_epochs tr) false) with (max_epochs tr + 0) in Hrun.
  rewrite Z.add_0_r in Hrun.
  rewrite (proj2 (Z.ltb_ge (first_epoch k) (max_epochs tr))) in Hrun
    by (unfold first_epoch; lia).
  exists s0, history, s_end. split; [done|]. split; [done|].
  split; [|split; apply Hrun].
  intros p Hin. apply list_elem_of_lookup_1 in Hin as [i Hp].
  rewrite (at_tensors _ _ _ _ _ _ _ _ _ _ _ _ Hrun).
  apply (late_run pl w (device_or (_device cb) (device pl)) training
           (first_epoch k) (last_epoch (max_epochs tr)) Halloc i p Hp).
  - done.
  - unfold last_epoch. lia.
  - unfold first_epoch, last_epoch. lia.
Qed.

(** [swa_epoch_start=5] with three epochs: the first parameter of
    [plain_model] ends as it began. *)
Lemma late_start_undoes_training_witness :
  ∃ s0 history s_end,
    fit true plain_model demo_training
      {| callback := start_at 5; trainer := short_trainer;
         heap := demo_world |} = Ok (s0 :: history) ∧
    last (s0 :: history) = Some s_end ∧
    tensors (heap s_end) !!! 0%nat = ints [1; 2].
Proof.
  destruct (late_start_undoes_training plain_model demo_world short_trainer
              demo_training (start_at 5) 5 0%nat host_entry)
    as (s0 & history & s_end & Hfit & Hlast & Hsame & _).
  - reflexivity.
  - reflexivity.
  - reflexivity.
  - exact plain_model_allocated.
  - reflexivity.
  - simpl. lia.
  - exists s0, history, s_end. split; [exact Hfit|]. split; [exact Hlast|].
    apply (Hsame 0%nat). apply list_elem_of_In. simpl. tauto.
Defined.

End SWAWhole.

(** * The hooks out of order *)
Module SWAHooks.
Import Py SWA SWASchedule Fixtures HookFixtures SWAFacts SWARuns SWACopy.
Import SWAWhole.

(** ** The hooks out of their order, and at the edge of the window *)

Lemma deepcopy_next_loc pl w :
  (next_loc w ≤ next_loc (deepcopy pl w).2)%nat.
Proof.
  unfold deepcopy.
  destruct (copy_cells (parameters pl) _ _) as [ps ts].
  destruct (copy_cells (modules pl) _ _) as [ms mo]. simpl. lia.
Qed.

Lemma deepcopy_allocated pl w :
  allocated pl w → allocated pl (deepcopy pl w).2.
Proof.
  intros [Hpar Hmod]. pose proof (deepcopy_next_loc pl w) as Hn.
  split.
  - intros p Hp. destruct (Hpar p Hp) as [Hlt Hsome]. split; [lia|].
    by rewrite (deepcopy_tensors_old pl w).
  - intros l Hl. destruct (Hmod l Hl) as [Hlt Hsome]. split; [lia|].
    by rewrite (deepcopy_modules_old pl w).
Qed.

(** Both epoch hooks read attributes that only the setup hook assigns: on
    a callback as [__init__] returns it, [on_train_epoch_start] raises
    AttributeError for [_average_model] in the epoch that equals
    [swa_start] and for [_max_epochs] in every other epoch, and
    [on_train_epoch_end] raises AttributeError for [_max_epochs], whatever
    the arguments of [__init__], the trainer and the torch version. *)
Theorem epoch_hooks_need_setup
    (torch : bool) (swa_epoch_start : pynum) (swa_lrs : pyval)
    (annealing_epochs : Z) (annealing_strategy : string)
    (avg_fn_ : avg_fn_arg) (device_ : device_arg)
    (pl : LightningModule) (s : state) :
  __init__ swa_epoch_start swa_lrs annealing_epochs annealing_strategy
    avg_fn_ device_ = Ok (callback s) →
  on_train_epoch_start torch pl s
  = Raise (AttributeError
             (if py_eq (PInt (current_epoch (trainer s)))
                   (swa_start (callback s))
              then "_average_model" else "_max_epochs")) ∧
  on_train_epoch_end pl s = Raise (AttributeError "_max_epochs").
Proof.
  intros Hinit.
  assert (_average_model (callback s) = None ∧
          _max_epochs (callback s) = None) as [Ham Hmax].
  { unfold __init__ in Hinit.
    destruct (swa_epoch_start_rejected _); [done|].
    destruct (swa_lrs_rejected _) as [[|]|]; simpl in Hinit; try done.
    destruct avg_fn_, device_; try done;
      injection Hinit as <-; by split. }
  split.
  - unfold on_train_epoch_start.
    destruct (py_eq _ _).
    + unfold start_swa. by rewrite Ham.
    + cbn [mbind result_bind mret result_ret].
      unfold swa_end.
      destruct (py_le _ _); cbn [mbind result_bind mret result_ret getattr];
        rewrite ?Hmax; reflexivity.
  - unfold on_train_epoch_end, swa_end. by rewrite Hmax.
Qed.

Lemma epoch_hooks_need_setup_witness :
  on_train_epoch_start true bn_model fresh_state
  = Raise (AttributeError "_max_epochs") ∧
  on_train_epoch_end bn_model fresh_state
  = Raise (AttributeError "_max_epochs").
Proof.
  apply (epoch_hooks_need_setup true (PInt 8) (PyFloat (float_lit 5 100)) 10
           "cos" AvgNone (TorchDevice "cpu") bn_model fresh_state).
  vm_compute. reflexivity.
Defined.





(** The setup hook is not idempotent on a model with batch-norm layers:
    every call copies the model again, records the [trainer.max_epochs] it
    finds and adds one to it. After a second call the trainer runs two
    epochs more than were asked for and the window ends one epoch later
    than after the first; without batch-norm layers both stay as they
    were. The start of the window is the same after both calls. *)
Theorem setup_twice_shifts_window
    (pl : LightningModule) (s s1 : state) :
  allocated pl (heap s) →
  on_before_accelerator_backend_setup pl s = Ok s1 →
  let extra := if pl_module_contains_batch_norm pl (heap s) then 1 else 0 in
  ∃ s2,
    on_before_accelerator_backend_setup pl s1 = Ok s2 ∧
    max_epochs (trainer s1) = max_epochs (trainer s) + extra ∧
    swa_end (callback s1) = Ok (max_epochs (trainer s) - 1) ∧
    max_epochs (trainer s2) = max_epochs (trainer s) + 2 * extra ∧
    swa_end (callback s2) = Ok (max_epochs (trainer s) + extra - 1) ∧
    swa_start (callback s2) = swa_start (callback s1) ∧
    next_loc (heap s2)
    = (next_loc (heap s)
       + 2 * (length (parameters pl) + length (modules pl)))%nat.
Proof.
  intros Halloc Hsetup extra.
  pose proof (deepcopy_batch_norm pl (heap s) Halloc) as Hbn.
  pose proof (deepcopy_allocated pl (heap s) Halloc) as Halloc1.
  pose proof (deepcopy_batch_norm pl (deepcopy pl (heap s)).2 Halloc1) as Hbn1.
  rewrite Hbn in Hbn1.
  assert (∀ w, next_loc (deepcopy pl w).2
               = (next_loc w + length (parameters pl)
                  + length (modules pl))%nat) as Hnext.
  { intros w. unfold deepcopy.
    destruct (copy_cells (parameters pl) _ _) as [ps ts].
    by destruct (copy_cells (modules pl) _ _) as [ms mo]. }
  unfold on_before_accelerator_backend_setup in Hsetup.
  destruct (1 <? length (optimizers (trainer s)))%nat eqn:Eo; [done|].
  destruct (1 <? length (lr_schedulers (trainer s)))%nat eqn:Es; [done|].
  apply bind_ok in Hsetup as (start & Hstart & Hs1).
  assert (∃ k, start = PInt k) as [k ->].
  { cbn -[deepcopy] in Hstart.
    destruct (_swa_epoch_start (callback s)) as [j|f].
    - injection Hstart as <-. by eexists.
    - apply bind_ok in Hstart as (x & _ & Hstart).
      apply bind_ok in Hstart as (j & _ & Hstart).
      injection Hstart as <-. by eexists. }
  cbn -[deepcopy pl_module_contains_batch_norm] in Hs1.
  rewrite Hbn in Hs1. injection Hs1 as <-.
  unfold on_before_accelerator_backend_setup.
  cbn -[deepcopy pl_module_contains_batch_norm].
  replace (optimizers (if pl_module_contains_batch_norm pl (heap s)
                       then set_max_epochs (max_epochs (trainer s) + 1)
                              (trainer s)
                       else trainer s))
    with (optimizers (trainer s))
    by (by destruct (pl_module_contains_batch_norm pl (heap s))).
  replace (lr_schedulers (if pl_module_contains_batch_norm pl (heap s)
                          then set_max_epochs (max_epochs (trainer s) + 1)
                                 (trainer s)
                          else trainer s))
    with (lr_schedulers (trainer s))
    by (by destruct (pl_module_contains_batch_norm pl (heap s))).
  cbn in Eo, Es. rewrite Eo, Es.
  cbn -[deepcopy pl_module_contains_batch_norm].
  rewrite Hbn1. eexists. split; [reflexivity|].
  cbn -[deepcopy pl_module_contains_batch_norm].
  rewrite !Hnext. subst extra.
  destruct (pl_module_contains_batch_norm pl (heap s));
    cbn -[deepcopy]; repeat split; try done; try (f_equal; lia); lia.
Qed.

Lemma setup_twice_shifts_window_witness :
  ∃ s1 s2,
    on_before_accelerator_backend_setup bn_model fresh_state = Ok s1 ∧
    on_before_accelerator_backend_setup bn_model s1 = Ok s2 ∧
    max_epochs (trainer s2) = 12 ∧
    swa_end (callback s2) = Ok 10.
Proof.
  destruct (on_before_accelerator_backend_setup bn_model fresh_state)
    as [s1|x] eqn:E1; [|by vm_compute in E1].
  destruct (setup_twice_shifts_window bn_model fresh_state s1
              bn_model_allocated E1)
    as (s2 & E2 & _ & _ & Hmax & Hend & _).
  exists s1, s2. split; [reflexivity|]. split; [exact E2|].
  split; [exact Hmax|exact Hend].
Defined.

End SWAHooks.

(** * More about [plugins/training_type/deepspeed.py] *)
Module DeepSpeedProperties.
Import Py DeepSpeed DSFixtures DSReady DeepSpeedFacts.

Lemma has_key_false (c : gmap string pyval) k :
  bool_decide (is_Some (c !! k)) = false ↔ c !! k = None.
Proof.
  rewrite bool_decide_eq_false, eq_None_not_Some. done.
Qed.

Lemma has_key_true (c : gmap string pyval) k :
  bool_decide (is_Some (c !! k)) = true ↔ is_Some (c !! k).
Proof. apply bool_decide_eq_true. Qed.

Lemma format_optimizer_config_returns m self r :
  _format_optimizer_config m self = Ok r →
  is_Some (config self !! "optimizer") ∧ r = self.
Proof.
  intros H. destruct (config self !! "optimizer") as [v|] eqn:E.
  - split; [by eexists|]. unfold _format_optimizer_config in H.
    rewrite E in H. rewrite bool_decide_eq_true_2 in H by (by eexists).
    simpl in H. by injection H.
  - by apply format_optimizer_config_never_returns in H.
Qed.

Lemma format_optimizer_config_skips m self :
  is_Some (config self !! "optimizer") →
  _format_optimizer_config m self = Ok self.
Proof.
  intros Hs. unfold _format_optimizer_config.
  by rewrite bool_decide_eq_true_2.
Qed.

(** [_format_optimizer_config] returns only for a config that already has
    an ["optimizer"] entry, and then it changes nothing: the path through
    [configure_optimizers] always ends in an exception. *)
Theorem format_optimizer_config_returns_iff m self r :
  _format_optimizer_config m self = Ok r
  ↔ is_Some (config self !! "optimizer") ∧ r = self.
Proof.
  split; [apply format_optimizer_config_returns|].
  intros [Hs ->]. by apply format_optimizer_config_skips.
Qed.

(** Without an ["optimizer"] entry, and with an optimizer [dict] from
    [configure_optimizers]: a [dict] of any size but one raises the "single
    optimizer, single scheduler" error whatever the scheduler is; a [dict]
    of size one raises it only for a scheduler of length one, and
    [TypeError] for every other scheduler, [None] included. *)
Theorem format_optimizer_config_dict_outcome m self opt s :
  config self !! "optimizer" = None →
  configure_optimizers m = PyTuple [PyDict opt; s] →
  _format_optimizer_config m self
  = Raise (if bool_decide (size opt = 1%nat)
           then match py_len s with
                | Ok 1 => MisconfigurationException single_msg
                | _ => TypeError
                end
           else MisconfigurationException single_msg).
Proof.
  intros Hno Hret. unfold _format_optimizer_config.
  rewrite Hno, Hret. rewrite bool_decide_eq_false_2 by (by intros [? ?]).
  simpl. case_bool_decide as Hsz.
  - rewrite Hsz. simpl. destruct (py_len s) as [n|e] eqn:El; simpl.
    + destruct (n =? 1) eqn:En.
      * apply Z.eqb_eq in En. by subst n.
      * apply Z.eqb_neq in En. destruct n as [|[p|p|]|p]; simpl; done.
    + destruct s; simpl in El; try done; by injection El as <-.
  - assert ((Z.of_nat (size opt) =? 1) = false) as ->; [|done].
    apply Z.eqb_neq. lia.
Qed.

Lemma format_optimizer_config_dict_outcome_witness :
  _format_optimizer_config lone_module demo_plugin = Raise TypeError.
Proof.
  apply (format_optimizer_config_dict_outcome lone_module demo_plugin adam
           PyNone); reflexivity.
Defined.


(** ** Batch size and gradient accumulation *)

Ltac key_cases c k :=
  let E := fresh "E" in
  destruct (c !! k) eqn:E;
  [rewrite (bool_decide_eq_true_2 (is_Some (Some _))) in * by (by eexists)
  |rewrite (bool_decide_eq_false_2 (is_Some None)) in * by (by intros [? ?])].

Lemma format_batch_size_config_spec m self :
  ((∃ r, _format_batch_size_grad_accum_config m self = Ok r)
   ↔ config self !! "train_batch_size" = None ∧
     config self !! "train_micro_batch_size_per_gpu" = None ∧
     config self !! "gradient_accumulation_steps" = None) ∧
  ∀ r, _format_batch_size_grad_accum_config m self = Ok r →
    r = with_config (config r) self ∧
    config r !! "train_micro_batch_size_per_gpu" = Some (batch_size m) ∧
    config r !! "gradient_accumulation_steps"
    = Some (accumulate_grad_batches m) ∧
    config r !! "gradient_clipping"
    = Some (default (gradient_clip_val m)
              (config self !! "gradient_clipping")) ∧
    ∀ k, k ≠ "train_micro_batch_size_per_gpu" →
         k ≠ "gradient_accumulation_steps" → k ≠ "gradient_clipping" →
         config r !! k = config self !! k.
Proof.
  unfold _format_batch_size_grad_accum_config.
  destruct (config self !! "train_batch_size") as [v1|] eqn:E1;
  destruct (config self !! "train_micro_batch_size_per_gpu") as [v2|] eqn:E2;
  destruct (config self !! "gradient_accumulation_steps") as [v3|] eqn:E3;
  rewrite ?(bool_decide_eq_true_2 (is_Some (Some _))) by (by eexists);
  rewrite ?(bool_decide_eq_false_2 (is_Some None)) by (by intros [? ?]);
  simpl.
  all: try (split; [split; [by intros [? ?]|by intros (? & ? & ?)]|done]).
  split; [split; [done|intros _; by eexists]|].
  intros r [= <-]. simpl.
  destruct (config self !! "gradient_clipping") as [v4|] eqn:E4;
    rewrite ?(bool_decide_eq_true_2 (is_Some (Some _))) by (by eexists);
    rewrite ?(bool_decide_eq_false_2 (is_Some None)) by (by intros [? ?]);
    simpl.
  - split; [done|]. rewrite lookup_insert_ne, lookup_insert_eq by done.
    rewrite lookup_insert_eq, !lookup_insert_ne by done.
    repeat split; try done.
    intros k H1 H2 H3. by rewrite !lookup_insert_ne.
  - split; [done|].
    rewrite !lookup_insert_ne, lookup_insert_eq by done.
    rewrite lookup_insert_ne, !lookup_insert_eq by done.
    repeat split; try done.
    intros k H1 H2 H3. by rewrite !lookup_insert_ne.
Qed.

(** [_format_batch_size_grad_accum_config] returns exactly for a config
    with none of the three keys it reserves. It then holds the batch size
    of the data loader and the trainer's accumulation factor, and the
    trainer's clipping value unless the user gave one; no other key and no
    other attribute of the plugin is touched. *)
Theorem format_batch_size_config_outcome m self :
  ((∃ r, _format_batch_size_grad_accum_config m self = Ok r)
   ↔ config self !! "train_batch_size" = None ∧
     config self !! "train_micro_batch_size_per_gpu" = None ∧
     config self !! "gradient_accumulation_steps" = None) ∧
  ∀ r, _format_batch_size_grad_accum_config m self = Ok r →
    r = with_config (config r) self ∧
    config r !! "train_micro_batch_size_per_gpu" = Some (batch_size m) ∧
    config r !! "gradient_accumulation_steps"
    = Some (accumulate_grad_batches m) ∧
    config r !! "gradient_clipping"
    = Some (default (gradient_clip_val m)
              (config self !! "gradient_clipping")) ∧
    ∀ k, k ≠ "train_micro_batch_size_per_gpu" →
         k ≠ "gradient_accumulation_steps" → k ≠ "gradient_clipping" →
         config r !! k = config self !! k.
Proof. apply format_batch_size_config_spec. Qed.

(** The function cannot run twice: what it wrote the first time makes the
    second call raise. *)
Theorem format_batch_size_config_only_once m m' self r :
  _format_batch_size_grad_accum_config m self = Ok r →
  _format_batch_size_grad_accum_config m' r
  = Raise (MisconfigurationException batch_msg).
Proof.
  unfold _format_batch_size_grad_accum_config at 1.
  destruct (_ || _); [done|]. destruct (bool_decide _); [done|].
  intros [= <-]. unfold _format_batch_size_grad_accum_config. simpl.
  assert (∀ c : gmap string pyval,
            is_Some ((if bool_decide (is_Some (config self !! "gradient_clipping"))
                      then <["gradient_accumulation_steps" := accumulate_grad_batches m]>
                             (<["train_micro_batch_size_per_gpu" := batch_size m]> c)
                      else <["gradient_clipping" := gradient_clip_val m]>
                             (<["gradient_accumulation_steps" := accumulate_grad_batches m]>
                                (<["train_micro_batch_size_per_gpu" := batch_size m]> c)))
                     !! "train_micro_batch_size_per_gpu")) as Hin.
  { intros c. destruct (bool_decide _).
    - rewrite lookup_insert_ne, lookup_insert_eq by done. by eexists.
    - rewrite !lookup_insert_ne, lookup_insert_eq by done. by eexists. }
  rewrite (bool_decide_eq_true_2 _ (Hin (config self))).
  by rewrite orb_true_r.
Qed.

(** [demo_plugin]'s config passes once; what comes back does not. *)
Lemma format_batch_size_config_only_once_witness :
  ∃ r, _format_batch_size_grad_accum_config demo_module demo_plugin = Ok r ∧
       _format_batch_size_grad_accum_config lone_module r
       = Raise (MisconfigurationException batch_msg).
Proof.
  destruct (_format_batch_size_grad_accum_config demo_module demo_plugin)
    as [r|x] eqn:H; [|vm_compute in H; discriminate].
  exists r. split; [reflexivity|].
  exact (format_batch_size_config_only_once demo_module lone_module
           demo_plugin r H).
Defined.

(** ** Precision *)

Lemma with_config_same self : with_config (config self) self = self.
Proof. by destruct self. Qed.

(** [_format_precision_config] writes at most the keys ["fp16"] and
    ["amp"], and nothing unless the precision is 16. With native AMP it
    sets ["fp16"] to [{"enabled": True}] unless the config has an ["amp"]
    entry. With APEX it tests for an ["apex"] entry and writes the ["amp"]
    entry: a user's own ["amp"] entry is replaced. Running it again changes
    nothing more. *)
Theorem format_precision_config_effect m self :
  let r := _format_precision_config m self in
  r = with_config (config r) self ∧
  (∀ k, k ≠ "fp16" → k ≠ "amp" → config r !! k = config self !! k) ∧
  _format_precision_config m r = r ∧
  (if precision m =? 16 then
     match amp_type m with
     | NATIVE =>
         config r !! "amp" = config self !! "amp" ∧
         config r !! "fp16"
         = match config self !! "amp" with
           | Some _ => config self !! "fp16"
           | None => Some (PyDict {[ "enabled" := PyBool true ]})
           end
     | APEX =>
         config r !! "fp16" = config self !! "fp16" ∧
         config r !! "amp"
         = match config self !! "apex" with
           | Some _ => config self !! "amp"
           | None => Some (PyDict (<["enabled" := PyBool true]>
                                     {[ "opt_level" := amp_level m ]}))
           end
     end
   else r = self).
Proof.
  unfold _format_precision_config.
  destruct (precision m =? 16) eqn:Ep; simpl.
  2: { by rewrite with_config_same. }
  destruct (amp_type m) eqn:Ea.
  - destruct (config self !! "amp") as [v|] eqn:E;
      rewrite ?(bool_decide_eq_true_2 (is_Some (Some _))) by (by eexists);
      rewrite ?(bool_decide_eq_false_2 (is_Some None)) by (by intros [? ?]);
      simpl; rewrite ?Ep, ?Ea.
    + rewrite E.
      rewrite ?(bool_decide_eq_true_2 (is_Some (Some _))) by (by eexists).
      simpl. by rewrite with_config_same.
    + rewrite lookup_insert_ne, E by done.
      rewrite ?(bool_decide_eq_false_2 (is_Some None)) by (by intros [? ?]).
      simpl. rewrite insert_insert_eq, lookup_insert_eq.
      repeat split; try done.
      intros k H1 H2. by rewrite lookup_insert_ne.
  - destruct (config self !! "apex") as [v|] eqn:E;
      rewrite ?(bool_decide_eq_true_2 (is_Some (Some _))) by (by eexists);
      rewrite ?(bool_decide_eq_false_2 (is_Some None)) by (by intros [? ?]);
      simpl; rewrite ?Ep, ?Ea.
    + rewrite E.
      rewrite ?(bool_decide_eq_true_2 (is_Some (Some _))) by (by eexists).
      simpl. by rewrite with_config_same.
    + rewrite lookup_insert_ne, E by done.
      rewrite ?(bool_decide_eq_false_2 (is_Some None)) by (by intros [? ?]).
      simpl. rewrite insert_insert_eq, lookup_insert_eq, lookup_insert_ne by done.
      repeat split; try done.
      intros k H1 H2. by rewrite lookup_insert_ne.
Qed.


(** ** The whole of [_format_config] *)

Lemma format_precision_keeps m self k :
  k ≠ "fp16" → k ≠ "amp" →
  config (_format_precision_config m self) !! k = config self !! k.
Proof.
  intros H1 H2. unfold _format_precision_config.
  destruct (precision m =? 16); [|done].
  destruct (amp_type m), (negb _); simpl; try done;
    by rewrite lookup_insert_ne.
Qed.

(** [_format_config] returns exactly for a config that names its
    optimizer and has none of the three reserved keys; a config without an
    ["optimizer"] entry is never accepted, whatever [configure_optimizers]
    returns. The config it leaves keeps the user's optimizer and holds the
    batch size and the accumulation factor. *)
Theorem format_config_returns_iff m self :
  ((∃ r, _format_config m self = Ok r)
   ↔ is_Some (config self !! "optimizer") ∧
     config self !! "train_batch_size" = None ∧
     config self !! "train_micro_batch_size_per_gpu" = None ∧
     config self !! "gradient_accumulation_steps" = None) ∧
  ∀ r, _format_config m self = Ok r →
    config r !! "optimizer" = config self !! "optimizer" ∧
    config r !! "train_micro_batch_size_per_gpu" = Some (batch_size m) ∧
    config r !! "gradient_accumulation_steps"
    = Some (accumulate_grad_batches m) ∧
    is_Some (config r !! "gradient_clipping").
Proof.
  assert (∀ r, _format_config m self = Ok r →
            is_Some (config self !! "optimizer") ∧
            ∃ r1, _format_batch_size_grad_accum_config m self = Ok r1 ∧
                  r = _format_precision_config m r1) as Hinv.
  { intros r H. unfold _format_config in H.
    destruct (bool_decide (config self = ∅)); [done|].
    apply SWAFacts.bind_ok in H as (r0 & H0 & H).
    apply format_optimizer_config_returns in H0 as [Hopt ->].
    split; [done|].
    apply SWAFacts.bind_ok in H as (r1 & H1 & H).
    exists r1. split; [done|]. by injection H. }
  destruct (format_batch_size_config_spec m self) as [Hiff Hpost].
  split; [split|].
  - intros [r H]. destruct (Hinv r H) as (Hopt & r1 & H1 & _).
    split; [done|]. apply Hiff. by exists r1.
  - intros (Hopt & Hkeys). apply Hiff in Hkeys as [r1 H1].
    exists (_format_precision_config m r1). unfold _format_config.
    rewrite bool_decide_eq_false_2.
    2: { intros Hempty. rewrite Hempty, lookup_empty in Hopt.
         by destruct Hopt. }
    rewrite format_optimizer_config_skips by done.
    simpl. by rewrite H1.
  - intros r H. destruct (Hinv r H) as (Hopt & r1 & H1 & ->).
    destruct (Hpost r1 H1) as (_ & Hmicro & Hacc & Hclip & Hrest).
    rewrite !format_precision_keeps by done.
    rewrite Hmicro, Hacc, Hclip, Hrest by done. repeat split. by eexists.
Qed.


(** ** Ranks and devices *)

Lemma py_index_spec {A} (l : list A) (i : Z) :
  let n := Z.of_nat (length l) in
  (- n ≤ i < n → ∃ a, py_index l i = Ok a ∧ l !! Z.to_nat (i `mod` n) = Some a) ∧
  (i < - n ∨ n ≤ i → py_index l i = Raise IndexError).
Proof.
  simpl. unfold py_index. split.
  - intros Hi. destruct (i <? 0) eqn:Eneg.
    + apply Z.ltb_lt in Eneg.
      rewrite (proj2 (Z.ltb_ge _ 0)), (proj2 (Z.leb_gt _ _)) by lia. simpl.
      replace (i `mod` Z.of_nat (length l)) with (i + Z.of_nat (length l)).
      2: { symmetry. rewrite <- (Z.mod_add _ 1) by lia.
           rewrite Z.mul_1_l. apply Z.mod_small. lia. }
      destruct (lookup_lt_is_Some_2 l (Z.to_nat (i + Z.of_nat (length l))))
        as [a Ha]; [lia|].
      rewrite Ha. by exists a.
    + apply Z.ltb_ge in Eneg.
      rewrite (proj2 (Z.ltb_ge _ 0)), (proj2 (Z.leb_gt _ _)) by lia. simpl.
      rewrite Z.mod_small by lia.
      destruct (lookup_lt_is_Some_2 l (Z.to_nat i)) as [a Ha]; [lia|].
      rewrite Ha. by exists a.
  - intros [Hi|Hi].
    + rewrite (proj2 (Z.ltb_lt i 0)) by lia.
      by rewrite (proj2 (Z.ltb_lt _ 0)) by lia.
    + rewrite (proj2 (Z.ltb_ge i 0)) by lia.
      rewrite (proj2 (Z.leb_le _ _)) by lia. by rewrite orb_true_r.
Qed.

(** [root_device] is [parallel_devices[local_rank]] with Python's
    indexing: a rank from [-n] to [n - 1], for [n] devices, picks the
    device at that position counted modulo [n] (a negative rank counts from
    the end), and any other rank raises [IndexError]. *)
Theorem root_device_by_local_rank self l :
  local_rank self = Some l →
  let n := Z.of_nat (length (parallel_devices self)) in
  (- n ≤ l < n →
   ∃ d, root_device self = Ok d ∧
        parallel_devices self !! Z.to_nat (l `mod` n) = Some d) ∧
  (l < - n ∨ n ≤ l → root_device self = Raise IndexError).
Proof.
  intros Hl. unfold root_device. rewrite Hl. simpl.
  apply (py_index_spec (parallel_devices self) l).
Qed.

Lemma root_device_by_local_rank_witness :
  root_device (with_ranks 0 2 (-1) demo_plugin) = Ok "cuda:1" ∧
  root_device (with_ranks 0 2 2 demo_plugin) = Raise IndexError.
Proof.
  split.
  - destruct (root_device_by_local_rank (with_ranks 0 2 (-1) demo_plugin) (-1)
                eq_refl) as [Hin _].
    destruct Hin as (d & -> & Hd); [simpl; lia|].
    vm_compute in Hd. by injection Hd as <-.
  - destruct (root_device_by_local_rank (with_ranks 0 2 2 demo_plugin) 2
                eq_refl) as [_ Hout].
    apply Hout. simpl. lia.
Defined.

Lemma environ_int_ok e k v z :
  e !! k = Some v → parse_int v = Some z →
  environ_getitem e k ≫= int_of_string = Ok z.
Proof.
  intros Hv Hz. unfold environ_getitem, int_of_string. rewrite Hv. simpl.
  by rewrite Hz.
Qed.



(** ** The engine *)

Section EngineFacts.
Variable init_distributed : string → result unit.
Variable initialize :
  Z → pyval → Z → gmap string pyval → result (pyval * pyval * pyval).

(** What [init_deepspeed] leaves of the plugin and of its surroundings. *)
Lemma init_deepspeed_inv s s1 :
  init_deepspeed initialize s = Ok s1 →
  ∃ self l r,
    (if _config_initialized (plugin s) then self = plugin s
     else ∃ f, _format_config (lightning_module (env s)) (plugin s) = Ok f ∧
               self = with_config_initialized true f) ∧
    local_rank self = Some l ∧
    initialize l (model self) (precision (lightning_module (env s)))
      (config self) = Ok r ∧
    plugin s1 = with_model r.1.1 self ∧
    environ (env s1) = environ (env s) ∧
    lightning_module (env s1) = lightning_module (env s) ∧
    global_seed (env s1) = global_seed (env s) ∧
    (if training (lightning_module (env s))
     then trainer_optimizers (env s1) = [r.1.2] ∧
          trainer_lr_schedulers (env s1) = configure_scheduler r.2
     else env s1 = env s).
Proof.
  unfold init_deepspeed. intros H.
  apply SWAFacts.bind_ok in H as (self & Hself & H).
  apply SWAFacts.bind_ok in H as (l & Hl & H).
  apply SWAFacts.bind_ok in H as (r & Hr & H).
  injection H as <-. exists self, l, r. simpl.
  split.
  { destruct (_config_initialized (plugin s)); simpl in Hself.
    - by injection Hself.
    - apply SWAFacts.bind_ok in Hself as (f & Hf & Hself).
      exists f. split; [done|]. by injection Hself. }
  split; [destruct (local_rank self); simpl in Hl; [by injection Hl as ->|done]|].
  split; [done|]. split; [done|].
  destruct (training (lightning_module (env s))); simpl; done.
Qed.

Lemma format_config_keeps_ranks m self f :
  _format_config m self = Ok f →
  global_rank f = global_rank self ∧ world_size f = world_size self ∧
  local_rank f = local_rank self ∧
  parallel_devices f = parallel_devices self ∧ model f = model self.
Proof.
  intros H. unfold _format_config in H.
  destruct (bool_decide _); [done|].
  apply SWAFacts.bind_ok in H as (r0 & H0 & H).
  apply format_optimizer_config_returns in H0 as [_ ->].
  apply SWAFacts.bind_ok in H as (r1 & H1 & H). injection H as <-.
  destruct (format_batch_size_config_spec m self) as [_ Hpost].
  destruct (Hpost r1 H1) as (-> & _).
  unfold _format_precision_config.
  destruct (_ =? _); [|done]. by destruct (amp_type m), (negb _).
Qed.

Lemma init_deepspeed_keeps_ranks s s1 :
  init_deepspeed initialize s = Ok s1 →
  global_rank (plugin s1) = global_rank (plugin s) ∧
  world_size (plugin s1) = world_size (plugin s) ∧
  local_rank (plugin s1) = local_rank (plugin s) ∧
  parallel_devices (plugin s1) = parallel_devices (plugin s).
Proof.
  intros H. apply init_deepspeed_inv in H
    as (self & l & r & Hself & _ & _ & -> & _).
  simpl. destruct (_config_initialized (plugin s)).
  - by subst self.
  - destruct Hself as (f & Hf & ->). simpl.
    apply format_config_keeps_ranks in Hf. tauto.
Qed.

(** [init_deepspeed] formats the config once. When it has returned, the
    flag [_config_initialized] is set; a later call leaves the config as
    it is, and returns exactly when the engine answers: [_format_config],
    which would now raise, is not called again. *)
Theorem init_deepspeed_formats_once s s1 :
  init_deepspeed initialize s = Ok s1 →
  _config_initialized (plugin s1) = true ∧
  (∀ s2, init_deepspeed initialize s1 = Ok s2 →
         config (plugin s2) = config (plugin s1)) ∧
  ((∃ s2, init_deepspeed initialize s1 = Ok s2)
   ↔ ∃ l r, local_rank (plugin s1) = Some l ∧
            initialize l (model (plugin s1))
              (precision (lightning_module (env s1))) (config (plugin s1))
            = Ok r).
Proof.
  intros H. pose proof H as Hinv. apply init_deepspeed_inv in Hinv
    as (self & l & r & Hself & Hl & Hr & Hp & _).
  assert (_config_initialized (plugin s1) = true) as Hflag.
  { rewrite Hp. simpl. destruct (_config_initialized (plugin s)) eqn:E.
    - by subst self.
    - by destruct Hself as (f & _ & ->). }
  split; [done|]. split.
  - intros s2 H2. apply init_deepspeed_inv in H2
      as (self2 & l2 & r2 & Hself2 & _ & _ & -> & _).
    rewrite Hflag in Hself2. by subst self2.
  - unfold init_deepspeed. rewrite Hflag. simpl. split.
    + intros [s2 H2].
      destruct (local_rank (plugin s1)) as [l1|]; simpl in H2; [|done].
      destruct (initialize l1 _ _ _) as [r1|] eqn:E1; simpl in H2; [|done].
      by exists l1, r1.
    + intros (l1 & r1 & -> & E1). simpl. rewrite E1. simpl. by eexists.
Qed.



End EngineFacts.

Lemma init_deepspeed_formats_once_witness :
  ∃ s1, init_deepspeed ready_engine
          {| plugin := with_ranks 1 2 1 ready_plugin; env := env ready_state |}
        = Ok s1 ∧
        _config_initialized (plugin s1) = true ∧
        ∃ s2, init_deepspeed ready_engine s1 = Ok s2.
Proof.
  destruct (init_deepspeed ready_engine
              {| plugin := with_ranks 1 2 1 ready_plugin;
                 env := env ready_state |}) as [s1|x] eqn:H;
    [|vm_compute in H; discriminate].
  exists s1. split; [done|].
  destruct (init_deepspeed_formats_once ready_engine _ s1 H)
    as (Hflag & _ & Hiff).
  split; [done|]. apply Hiff.
  destruct (init_deepspeed_keeps_ranks ready_engine _ _ H) as (_ & _ & Hl & _).
  exists 1, (PyObject 1, PyObject 2, PyObject 3). by split.
Defined.



End DeepSpeedProperties.
